(** * FX risk monitor (USD/MAD): the VaR pipeline of [prototype.py]

    Python floats are IEEE-754 binary64 numbers: they are modelled by Rocq's
    primitive floats, whose operations are the same correctly rounded
    binary64 operations.  Python integers are [Z].  A pandas column is a
    list of floats in which NaN is the missing value.  The functions the
    script calls in numpy, scipy and arch, the date parser of pandas and the
    two float formats are the fields of the record [Library]; what yfinance
    answers is the record [Market]; the script's own code is translated
    over them. *)

From Stdlib Require Import ZArith List String Ascii Bool Lia Floats DecimalString.
Import ListNotations.

Set Warnings "-inexact-float".
Local Open Scope string_scope.
Local Open Scope float_scope.

(** ** Exceptions

    Every exception the script raises itself is a [ValueError]; pandas adds
    [KeyError], [IndexError] and [TypeError]; anything else a library raises
    is [OtherError].  [exn_msg] is what [str(e)] returns. *)

Inductive exn_class : Type :=
  ValueError | KeyError | IndexError | TypeError | OtherError.

Record exn : Type := mk_exn { exn_kind : exn_class; exn_msg : string }.

Inductive result (A : Type) : Type :=
| Ok (a : A)
| Raise (e : exn).

Arguments Ok {A} a.
Arguments Raise {A} e.

Definition bind {A B : Type} (r : result A) (k : A -> result B) : result B :=
  match r with
  | Ok a => k a
  | Raise e => Raise e
  end.

Notation "x <- r ;; k" := (bind r (fun x => k))
  (at level 61, r at next level, right associativity).

Definition is_value_error (e : exn) : bool :=
  match exn_kind e with
  | ValueError => true
  | _ => false
  end.

(** The messages of the script's [raise ValueError(...)] statements. *)

Definition msg_montant : string := "Le montant doit être positif.".

Definition msg_dates : string := "Les dates doivent être au format YYYY-MM-DD.".

Definition msg_ordre : string :=
  "La date d'échéance doit être postérieure à la date de facturation.".

Definition msg_horizon : string := "L'horizon doit être d'au moins 1 jour.".

Definition msg_taux_vide : string :=
  "Impossible de récupérer le taux USD/MAD en temps réel.".

Definition msg_taux_nan : string :=
  "Les données de clôture USD/MAD sont toutes NaN.".

Definition msg_historique_vide : string :=
  "Impossible de récupérer les données historiques.".

Definition msg_historique_court : string :=
  "Données historiques insuffisantes (< 250 observations).".

(** ** pandas data: a column is a list of floats, a missing value is NaN *)

Definition Series : Type := list float.

Record DataFrame : Type := mk_df {
  df_index : list Z;
  df_columns : list (string * Series)
}.

(** [data.empty]: one of the two axes has length zero. *)
Definition df_empty (data : DataFrame) : bool :=
  (List.length (df_index data) =? 0)%nat
  || (List.length (df_columns data) =? 0)%nat.

(** ['name' in data.columns] *)
Definition df_has_column (name : string) (data : DataFrame) : bool :=
  existsb (fun c => String.eqb name (fst c)) (df_columns data).

(** [data['name']], a [KeyError] when the column is absent. *)
Definition df_getitem (name : string) (data : DataFrame) : result Series :=
  match find (fun c => String.eqb name (fst c)) (df_columns data) with
  | Some c => Ok (snd c)
  | None => Raise (mk_exn KeyError ("'" ++ name ++ "'"))
  end.

Definition dropna (s : Series) : Series := filter (fun x => negb (is_nan x)) s.

(** [s.isna().all()] *)
Definition isna_all (s : Series) : bool := forallb is_nan s.

(** The number of missing values of a column. *)
Definition count_na (s : Series) : nat := List.length (filter is_nan s).

(** [s.iloc[-1]] *)
Definition iloc_last (s : Series) : result float :=
  match rev s with
  | x :: _ => Ok x
  | [] => Raise (mk_exn IndexError "single positional indexer is out-of-bounds")
  end.

(** [s.shift(1)]: every value moves one row down, the first row is NaN. *)
Definition shift1 (s : Series) : Series :=
  match s with
  | [] => []
  | _ :: _ => nan :: removelast s
  end.

(** Row-wise division of two columns on the same index. *)
Fixpoint series_div (a b : Series) : Series :=
  match a, b with
  | x :: a', y :: b' => (x / y) :: series_div a' b'
  | _, _ => []
  end.

(** ** pandas timestamps

    What [pd.to_datetime] answers when it does not raise: a timestamp, with
    or without a time zone, or [NaT] (not a time, the answer to an empty
    string).  A timestamp is its instant in nanoseconds since the epoch, in
    UTC when it has a time zone. *)

Inductive Timestamp : Type :=
| Stamp (tz_aware : bool) (ns : Z)
| NaT.

(** The value of [(date_ech - date_fact).days], hence of [horizon]: a
    Python integer, or the float NaN when one of the dates is [NaT]. *)
Inductive py_days : Type :=
| IntDays (n : Z)
| NanDays.

(** ** The library functions the script calls *)

(** What [model.fit] returns, as far as the script reads it. *)
Record FitResult : Type := mk_fit {
  conditional_volatility : Series;
  params_nu : float
}.

Record Library : Type := mk_library {
  (** [pd.to_datetime] on a string *)
  to_datetime : string -> result Timestamp;
  (** the [Timedelta], in nanoseconds, of the difference of two instants, or
      the exception pandas raises when it is out of bounds *)
  timestamp_sub : Z -> Z -> result Z;
  (** [np.log] *)
  np_log : float -> float;
  (** [np.sqrt] on the horizon *)
  np_sqrt : py_days -> float;
  (** [scipy.stats.t.ppf(p, dof)] *)
  t_ppf : float -> float -> float;
  (** [arch_model(returns, vol='EGARCH', p=1, q=1, dist='t').fit(disp="off")] *)
  arch_fit : Series -> result FitResult;
  (** the format specifications [:.4f] and [:,.0f] *)
  format_4f : float -> string;
  format_0f : float -> string
}.

(** [np.sqrt] on a Python integer that binary64 holds exactly: the
    correctly rounded square root of its conversion. *)
Definition sqrt_days (n : Z) : float := sqrt (of_uint63 (Uint63.of_Z n)).


(** What [yf.download] answers to the two queries of the script. *)
Record Market : Type := mk_market {
  intraday : result DataFrame;
  history : result DataFrame
}.

(** ** [get_taux_usd_mad] (lines 13-26)

    It returns the rate, or the text of the error it caught. *)

Definition get_taux_usd_mad_try (m : Market) : result float :=
  usd_mad_data <- intraday m ;;
  if df_empty usd_mad_data then Raise (mk_exn ValueError msg_taux_vide)
  else
    close_data <- df_getitem "Close" usd_mad_data ;;
    if isna_all close_data then Raise (mk_exn ValueError msg_taux_nan)
    else iloc_last (dropna close_data).

Definition get_taux_usd_mad (m : Market) : string + float :=
  match get_taux_usd_mad_try m with
  | Ok taux => inr taux
  | Raise e => inl ("Erreur lors de la récupération du taux : " ++ exn_msg e)
  end.

(** ** [validate_inputs] (lines 29-42) *)

Definition ns_per_day : Z := 86400000000000.

(** The whole days between two instants. *)
Definition timedelta_days (date_ech date_fact : Z) : Z :=
  ((date_ech - date_fact) / ns_per_day)%Z.

(** [a < b] on what [pd.to_datetime] answered: false as soon as one side is
    [NaT], a [TypeError] between a timestamp with a time zone and one
    without. *)
Definition timestamp_lt (a b : Timestamp) : result bool :=
  match a, b with
  | Stamp za x, Stamp zb y =>
      if Bool.eqb za zb then Ok (x <? y)%Z
      else Raise (mk_exn TypeError
                    "Cannot compare tz-naive and tz-aware timestamps")
  | _, _ => Ok false
  end.

(** [(a - b).days]: NaN as soon as one side is [NaT]. *)
Definition timestamp_days (lib : Library) (a b : Timestamp) : result py_days :=
  match a, b with
  | Stamp za x, Stamp zb y =>
      if Bool.eqb za zb
      then d <- timestamp_sub lib x y ;; Ok (IntDays (d / ns_per_day))
      else Raise (mk_exn TypeError
                    "Cannot subtract tz-naive and tz-aware datetime-like objects.")
  | _, _ => Ok NanDays
  end.

(** [horizon < k]: false on NaN. *)
Definition days_ltb (horizon : py_days) (k : Z) : bool :=
  match horizon with
  | IntDays n => (n <? k)%Z
  | NanDays => false
  end.

Definition validate_inputs (lib : Library) (montant_usd : float)
    (date_fact date_ech : string) : result py_days :=
  if montant_usd <=? 0 then Raise (mk_exn ValueError msg_montant)
  else
    match (f <- to_datetime lib date_fact ;;
           e <- to_datetime lib date_ech ;;
           Ok (f, e)) with
    | Raise e =>
        if is_value_error e then Raise (mk_exn ValueError msg_dates)
        else Raise e
    | Ok (date_fact, date_ech) =>
        before <- timestamp_lt date_ech date_fact ;;
        if before then Raise (mk_exn ValueError msg_ordre)
        else
          horizon <- timestamp_days lib date_ech date_fact ;;
          if days_ltb horizon 1 then Raise (mk_exn ValueError msg_horizon)
          else Ok horizon
    end.

(** ** Historical series (lines 55-64) *)

Definition donnees_historiques (m : Market) : result Series :=
  data <- history m ;;
  if df_empty data then Raise (mk_exn ValueError msg_historique_vide)
  else
    taux <- (if df_has_column "Adj Close" data
             then df_getitem "Adj Close" data
             else df_getitem "Close" data) ;;
    let taux := dropna taux in
    if (List.length taux <? 250)%nat
    then Raise (mk_exn ValueError msg_historique_court)
    else Ok taux.

(** ** Log-returns in percent (lines 66-68) *)

Definition rendements_pct (lib : Library) (taux : Series) : Series :=
  let returns := dropna (map (np_log lib) (series_div taux (shift1 taux))) in
  map (fun r => r * 100) returns.

(** ** Python's built-in [min] and [max] on two floats

    [min(a, b)] keeps [a] and replaces it by [b] only when [b < a];
    [max(a, b)] keeps [a] and replaces it by [b] only when [b > a]. *)

Definition py_min (a b : float) : float := if b <? a then b else a.

Definition py_max (a b : float) : float := if a <? b then b else a.

(** ** The volatility band (lines 77-80) *)

Definition vol_min : float := 0.4 / 100 / 2.015.

Definition vol_max : float := 0.6 / 100 / 2.015.

Definition clamp_volatility (vol_current : float) : float :=
  py_max (py_min vol_current vol_max) vol_min.

Definition in_band (v : float) : bool := (vol_min <=? v) && (v <=? vol_max).

(** ** The VaR figures (lines 83-106) *)

Record Stress : Type := mk_stress {
  var_horizon_stress : float;
  var_horizon_stress_pct : float;
  perte_potentielle_stress : float
}.

Record Calcul : Type := mk_calcul {
  taux_usd_mad : float;
  horizon : py_days;
  quantile_t : float;
  var_journaliere : float;
  var_journaliere_pct : float;
  var_horizon : float;
  var_horizon_pct : float;
  montant_comptabilise : float;
  perte_potentielle : float;
  montant_estime : float;
  stress : option Stress
}.

Definition calcul_stress (lib : Library) (montant_usd taux : float)
    (horizon : py_days) (vol_current dof : float) : Stress :=
  let quantile_t_stress := abs (t_ppf lib 0.01 dof) in
  let var_horizon_stress := quantile_t_stress * vol_current * np_sqrt lib horizon in
  let var_horizon_stress_pct := var_horizon_stress * 100 in
  let perte_potentielle_stress := var_horizon_stress * montant_usd * taux in
  mk_stress var_horizon_stress var_horizon_stress_pct perte_potentielle_stress.

Definition calcul_var (lib : Library) (montant_usd taux : float)
    (horizon : py_days) (vol_current dof : float) (stress_test : bool) : Calcul :=
  let quantile_t := abs (t_ppf lib 0.05 dof) in
  let var_journaliere := quantile_t * vol_current in
  let var_journaliere_pct := var_journaliere * 100 in
  let var_horizon := var_journaliere * np_sqrt lib horizon in
  let var_horizon_pct := var_horizon * 100 in
  let montant_comptabilise := montant_usd * taux in
  let perte_potentielle := var_horizon * montant_usd * taux in
  let montant_estime := montant_comptabilise - perte_potentielle in
  mk_calcul taux horizon quantile_t var_journaliere var_journaliere_pct
    var_horizon var_horizon_pct montant_comptabilise perte_potentielle
    montant_estime
    (if stress_test
     then Some (calcul_stress lib montant_usd taux horizon vol_current dof)
     else None).

(** ** The report (lines 108-118) *)

Definition nl : string := String (ascii_of_nat 10) EmptyString.

Definition str_int (n : Z) : string := NilZero.string_of_int (Z.to_int n).

(** [{horizon}] in the f-string. *)
Definition str_days (horizon : py_days) : string :=
  match horizon with
  | IntDays n => str_int n
  | NanDays => "nan"
  end.

Definition resume_base (lib : Library) (c : Calcul) : string :=
  nl ++ "💱 Taux USD/MAD actuel : " ++ format_4f lib (taux_usd_mad c) ++ nl
  ++ "Montant comptabilisé à la date de facturation : "
  ++ format_0f lib (montant_comptabilise c) ++ " MAD" ++ nl
  ++ "Montant estimé au règlement (scénario défavorable) : "
  ++ format_0f lib (montant_estime c) ++ " MAD" ++ nl
  ++ "VaR journalière (en %) : " ++ format_4f lib (var_journaliere_pct c) ++ "%" ++ nl
  ++ "VaR horizon " ++ str_days (horizon c) ++ " jours (en %) : "
  ++ format_4f lib (var_horizon_pct c) ++ "%" ++ nl
  ++ "Perte potentielle maximale : " ++ format_0f lib (perte_potentielle c)
  ++ " MAD" ++ nl.

Definition resume_stress (lib : Library) (s : Stress) : string :=
  nl ++ "VaR stressée (en %) : " ++ format_4f lib (var_horizon_stress_pct s) ++ "%"
  ++ nl ++ "Perte stressée : " ++ format_0f lib (perte_potentielle_stress s) ++ " MAD".

Definition format_resume (lib : Library) (c : Calcul) : string :=
  match stress c with
  | Some s => resume_base lib c ++ resume_stress lib s
  | None => resume_base lib c
  end.

(** ** [calculer_var] (lines 45-122)

    The only state the function touches is the standard output, to which
    it prints the adjusted volatility; it is threaded explicitly. *)

Definition Stdout : Type := list string.

Definition py_print (line : string) (out : Stdout) : Stdout :=
  (out ++ [line])%list.

(** Lines 66-76: returns, fit, last conditional volatility as a decimal. *)
Definition volatilite (lib : Library) (taux : Series) : result (float * float) :=
  let returns_pct := rendements_pct lib taux in
  fit <- arch_fit lib returns_pct ;;
  vol_current_pct <- iloc_last (conditional_volatility fit) ;;
  Ok (vol_current_pct / 100, params_nu fit).

(** The body of the [try] block: the text it returns or the exception it
    raises, and the standard output afterwards. *)
Definition calculer_var_try (lib : Library) (m : Market) (montant_usd : float)
    (date_fact date_ech : string) (stress_test : bool) (out : Stdout)
    : result (string + Calcul) * Stdout :=
  match validate_inputs lib montant_usd date_fact date_ech with
  | Raise e => (Raise e, out)
  | Ok horizon =>
      match get_taux_usd_mad m with
      | inl message => (Ok (inl message), out)
      | inr taux_usd_mad =>
          match (taux <- donnees_historiques m ;; volatilite lib taux) with
          | Raise e => (Raise e, out)
          | Ok (vol_current, dof) =>
              let vol_current := clamp_volatility vol_current in
              let out :=
                py_print ("Adjusted volatility: "
                          ++ format_4f lib (vol_current * 100) ++ "%") out in
              (Ok (inr (calcul_var lib montant_usd taux_usd_mad horizon
                          vol_current dof stress_test)), out)
          end
      end
  end.

Definition calculer_var (lib : Library) (m : Market) (montant_usd : float)
    (date_fact date_ech : string) (stress_test : bool) (out : Stdout)
    : string * Stdout :=
  match calculer_var_try lib m montant_usd date_fact date_ech stress_test out with
  | (Ok (inl message), out') => (message, out')
  | (Ok (inr c), out') => (format_resume lib c, out')
  | (Raise e, out') => ("Erreur : " ++ exn_msg e, out')
  end.

(** ** A replay double of the library and of the market

    Concrete stand-ins for the external functions, used to run the
    pipeline on explicit inputs. *)

Definition digit_of (c : ascii) : option Z :=
  let n := Z.of_nat (nat_of_ascii c) in
  if ((48 <=? n) && (n <=? 57))%Z then Some (n - 48)%Z else None.

Fixpoint digits_value (acc : Z) (s : list ascii) : option Z :=
  match s with
  | [] => Some acc
  | c :: s' =>
      match digit_of c with
      | Some d => digits_value (10 * acc + d)%Z s'
      | None => None
      end
  end.

(** Days from 1970-01-01 to the civil date [y]-[m]-[d]. *)
Definition days_from_civil (y m d : Z) : Z :=
  let y' := (if m <=? 2 then y - 1 else y)%Z in
  let era := (y' / 400)%Z in
  let yoe := (y' - era * 400)%Z in
  let doy := ((153 * (if m >? 2 then m - 3 else m + 9) + 2) / 5 + d - 1)%Z in
  let doe := (yoe * 365 + yoe / 4 - yoe / 100 + doy)%Z in
  (era * 146097 + doe - 719468)%Z.

(** A parser of dates: [YYYY-MM-DD] is a timestamp without a time zone,
    [YYYY-MM-DDT00:00:00+00:00] one with a time zone, the empty string is
    [NaT]. *)
Definition replay_date (s : string) : option Z :=
  match list_ascii_of_string s with
  | [y1; y2; y3; y4; "-"%char; m1; m2; "-"%char; d1; d2] =>
      match digits_value 0 [y1; y2; y3; y4], digits_value 0 [m1; m2],
            digits_value 0 [d1; d2] with
      | Some y, Some m, Some d =>
          if ((1 <=? m) && (m <=? 12) && (1 <=? d) && (d <=? 31))%Z
          then Some (days_from_civil y m d * ns_per_day)%Z
          else None
      | _, _, _ => None
      end
  | _ => None
  end.

Definition replay_to_datetime (s : string) : result Timestamp :=
  let bad := Raise (mk_exn ValueError ("Unknown datetime string format: " ++ s)) in
  if String.eqb s "" then Ok NaT
  else
    match replay_date s with
    | Some ns => Ok (Stamp false ns)
    | None =>
        if String.eqb (substring 10 15 s) "T00:00:00+00:00"
           && (String.length s =? 25)%nat
        then match replay_date (substring 0 10 s) with
             | Some ns => Ok (Stamp true ns)
             | None => bad
             end
        else bad
    end.

(** A difference fits a [Timedelta] when it fits 64 bits. *)
Definition replay_sub (a b : Z) : result Z :=
  if (Z.abs (a - b) <=? 9223372036854775807)%Z then Ok (a - b)%Z
  else Raise (mk_exn ValueError "Result is too large for pandas.Timedelta.").

(** The sign of the logarithm stands for the logarithm: NaN exactly on NaN
    and on negative numbers. *)
Definition replay_log (x : float) : float :=
  if is_nan x || (x <? 0) then nan
  else if x <? 1 then -1 else if 1 <? x then 1 else 0.

Definition replay_sqrt (horizon : py_days) : float :=
  match horizon with
  | IntDays n => sqrt_days n
  | NanDays => nan
  end.

(** The two quantiles of a Student-t distribution with 5 degrees of freedom. *)
Definition replay_ppf (p dof : float) : float :=
  if is_nan dof then nan else if p <? 0.03 then -3.365 else -2.015.

(** A fit that answers a constant conditional volatility of 0.25 percent. *)
Definition replay_fit (returns : Series) : result FitResult :=
  Ok (mk_fit (map (fun _ => 0.25) returns) 5).

Definition replay_format (x : float) : string :=
  if is_nan x then "nan" else if is_infinity x then "inf" else "#".

Definition replay_library : Library :=
  mk_library replay_to_datetime replay_sub replay_log replay_sqrt replay_ppf
    replay_fit replay_format replay_format.



(** A library whose fit does not converge to the same answer: it differs
    from [replay_library] by the conditional volatility, 0.75 percent. *)
Definition other_fit (returns : Series) : result FitResult :=
  Ok (mk_fit (map (fun _ => 0.75) returns) 5).

Definition other_library : Library :=
  mk_library replay_to_datetime replay_sub replay_log replay_sqrt replay_ppf
    other_fit replay_format replay_format.

(** A market whose rate stays at 10 dirhams over 250 days. *)
Definition flat_market : Market :=
  mk_market
    (Ok (mk_df [0%Z] [("Close", [10])]))
    (Ok (mk_df (map Z.of_nat (seq 0 250)) [("Close", repeat 10 250)])).

(** A frame with both columns, 249 usable adjusted closes and one missing. *)
Definition short_market : Market :=
  mk_market
    (Ok (mk_df [0%Z] [("Close", [10])]))
    (Ok (mk_df (map Z.of_nat (seq 0 250))
           [("Close", repeat 10 250); ("Adj Close", nan :: repeat 10 249)])).

(** ** Vocabulary of the proofs *)

(** The sign of a float that is not NaN. *)
Definition has_sign (s : bool) (x : spec_float) : Prop :=
  match x with
  | S754_zero s' | S754_infinity s' | S754_finite s' _ _ => s' = s
  | S754_nan => False
  end.

(** Strictly positive and finite: what a price is. *)
Definition finite_pos (x : float) : bool := (0 <? x) && (x <? infinity).




(** The quotients of each price by the one before. *)
Fixpoint consecutive_ratios (taux : Series) : Series :=
  match taux with
  | a :: (b :: _) as rest => (b / a) :: consecutive_ratios rest
  | _ => []
  end.

(** After [k] right shifts of [m] the record holds the quotient [q] of [m]
    by [2^k], and its two bits place the remainder against half of [2^k]. *)
Definition shr_inv (m k : Z) (mrs : shr_record) : Prop :=
  let q := shr_m mrs in
  let c := (2 * (m - q * 2 ^ k))%Z in
  (0 <= q)%Z
  /\ (q * 2 ^ k <= m < (q + 1) * 2 ^ k)%Z
  /\ shr_r mrs = (2 ^ k <=? c)%Z
  /\ shr_s mrs = negb ((c =? 0)%Z || (c =? 2 ^ k)%Z).

(** Round to nearest, ties to even: the increment of the quotient [q] when
    twice the remainder is [c] and the divisor is [T]. *)
Definition rn_up (q c T : Z) : Z :=
  if (T <? c)%Z || ((c =? T)%Z && Z.odd q) then 1%Z else 0%Z.

Definition rounds_to (m k m1 : Z) : Prop :=
  exists q : Z,
    (0 <= q)%Z /\ (q * 2 ^ k <= m < (q + 1) * 2 ^ k)%Z
    /\ m1 = (q + rn_up q (2 * (m - q * 2 ^ k)) (2 ^ k))%Z.

Definition two53 : Z := 9007199254740992.

Definition two52 : Z := 4503599627370496.

(** What [binary_round_aux] returns for the rounded mantissa [m1] at
    exponent [E]. *)
Definition finish (m1 E : Z) : spec_float :=
  match m1 with
  | Z0 => S754_zero false
  | Z.pos p =>
      if (m1 =? two53)%Z
      then (if (E + 1 <=? 971)%Z
            then S754_finite false 4503599627370496 (E + 1)
            else S754_infinity false)
      else (if (E <=? 971)%Z then S754_finite false p E else S754_infinity false)
  | Z.neg _ => S754_nan
  end.

Ltac order_cases :=
  repeat match goal with
    | |- context [Z.eqb ?a ?b] => destruct (Z.eqb_spec a b)
    | |- context [Z.leb ?a ?b] => destruct (Z.leb_spec a b)
    | |- context [Z.ltb ?a ?b] => destruct (Z.ltb_spec a b)
    end.

(** * Facts about binary64 arithmetic *)

(** ** Comparisons *)

Lemma SFcompare_refl (x : spec_float) :
  x <> S754_nan -> SFcompare x x = Some Eq.
Proof.
  destruct x as [s | s | | s m e]; simpl; intros Hx;
    try reflexivity; try (destruct s; reflexivity); try congruence.
  rewrite Z.compare_refl, Pos.compare_cont_refl. destruct s; reflexivity.
Qed.

Lemma SFcompare_antisym (x y : spec_float) :
  SFcompare y x = option_map CompOpp (SFcompare x y).
Proof.
  destruct x as [s1 | s1 | | s1 m1 e1], y as [s2 | s2 | | s2 m2 e2]; simpl;
    try reflexivity; try (destruct s1; reflexivity);
    try (destruct s2; reflexivity);
    try (destruct s1, s2; reflexivity).
  rewrite (Z.compare_antisym e1 e2).
  assert (Hm : Pos.compare_cont Eq m2 m1 = CompOpp (Pos.compare_cont Eq m1 m2))
    by (rewrite Pos.compare_cont_antisym; reflexivity).
  rewrite Hm.
  destruct s1, s2; simpl; try reflexivity;
    destruct (e1 ?= e2)%Z; reflexivity.
Qed.

Lemma is_nan_spec (x : float) :
  is_nan x = match Prim2SF x with S754_nan => true | _ => false end.
Proof.
  unfold is_nan. rewrite eqb_spec. unfold SFeqb.
  destruct (Prim2SF x) as [s | s | | s m e] eqn:E.
  - reflexivity.
  - destruct s; reflexivity.
  - reflexivity.
  - rewrite SFcompare_refl by discriminate. reflexivity.
Qed.

Lemma is_nan_false_iff (x : float) :
  is_nan x = false <-> Prim2SF x <> S754_nan.
Proof.
  rewrite is_nan_spec. destruct (Prim2SF x); split; congruence.
Qed.

Lemma SFcompare_none (x y : spec_float) :
  SFcompare x y = None -> x = S754_nan \/ y = S754_nan.
Proof.
  destruct x as [s1 | s1 | | s1 m1 e1], y as [s2 | s2 | | s2 m2 e2]; simpl;
    intros H; try discriminate H; auto.
Qed.

(** Without NaN, [a < b] is false exactly when [b <= a]. *)
Lemma ltb_false_leb (a b : float) :
  is_nan a = false -> is_nan b = false -> (a <? b) = false -> (b <=? a) = true.
Proof.
  rewrite !is_nan_false_iff, ltb_spec, leb_spec. unfold SFltb, SFleb.
  intros Ha Hb. rewrite (SFcompare_antisym (Prim2SF a) (Prim2SF b)).
  destruct (SFcompare (Prim2SF a) (Prim2SF b)) as [[ | | ] | ] eqn:E; simpl;
    try reflexivity; try discriminate.
  destruct (SFcompare_none _ _ E); contradiction.
Qed.

Lemma leb_not_nan (a b : float) :
  (a <=? b) = true -> is_nan a = false /\ is_nan b = false.
Proof.
  rewrite leb_spec, !is_nan_spec. unfold SFleb.
  destruct (Prim2SF a), (Prim2SF b); simpl; intros H;
    try discriminate H; split; reflexivity.
Qed.

(** ** Signs of rounded results *)

Lemma iter_pos_invariant {A : Type} (P : A -> Prop) (f : A -> A) :
  (forall x, P x -> P (f x)) ->
  forall (p : positive) (x : A), P x -> P (iter_pos f p x).
Proof.
  intros Hf. induction p as [p IH | p IH |]; intros x Hx; simpl.
  - apply IH, IH, Hf, Hx.
  - apply IH, IH, Hx.
  - apply Hf, Hx.
Qed.

Lemma shr_1_nonneg (mrs : shr_record) :
  (0 <= shr_m mrs)%Z -> (0 <= shr_m (shr_1 mrs))%Z.
Proof.
  destruct mrs as [m r s]. simpl.
  destruct m as [| [p | p |] | p]; simpl; lia.
Qed.

Lemma shr_fexp_nonneg (m e : Z) (l : location) :
  (0 <= m)%Z -> (0 <= shr_m (fst (shr_fexp prec emax m e l)))%Z.
Proof.
  intros Hm. unfold shr_fexp, shr.
  assert (H0 : (0 <= shr_m (shr_record_of_loc m l))%Z)
    by (destruct l as [| []]; exact Hm).
  destruct (fexp prec emax (Zdigits2 m + e) - e)%Z; simpl; try exact H0.
  apply (iter_pos_invariant (fun mrs => (0 <= shr_m mrs)%Z)); 
    [exact shr_1_nonneg | exact H0].
Qed.

Lemma round_nearest_even_nonneg (m : Z) (l : location) :
  (0 <= m)%Z -> (0 <= round_nearest_even m l)%Z.
Proof.
  intros Hm. destruct l as [| []]; simpl; try lia.
  destruct (Z.even m); lia.
Qed.

Lemma binary_round_aux_sign (s : bool) (m e : Z) (l : location) :
  (0 <= m)%Z -> has_sign s (binary_round_aux prec emax s m e l).
Proof.
  intros Hm. unfold binary_round_aux.
  pose proof (shr_fexp_nonneg m e l Hm) as H1.
  destruct (shr_fexp prec emax m e l) as [mrs' e']. simpl in H1.
  pose proof (shr_fexp_nonneg _ e' loc_Exact
                (round_nearest_even_nonneg _ (loc_of_shr_record mrs') H1)) as H2.
  destruct (shr_fexp prec emax _ e' loc_Exact) as [mrs'' e'']. simpl in H2.
  destruct (shr_m mrs'') as [| q | q].
  - reflexivity.
  - destruct (Z.leb _ _); reflexivity.
  - lia.
Qed.


Lemma has_sign_not_nan (s : bool) (x : float) :
  has_sign s (Prim2SF x) -> is_nan x = false.
Proof.
  rewrite is_nan_spec. destruct (Prim2SF x); simpl; intros H;
    try reflexivity; contradiction.
Qed.

Lemma has_sign_false_not_neg (x : float) :
  has_sign false (Prim2SF x) -> (x <? 0) = false.
Proof.
  rewrite ltb_spec. change (Prim2SF 0) with (S754_zero false).
  destruct (Prim2SF x); simpl; intros H; try contradiction; subst;
    reflexivity.
Qed.

Lemma finite_pos_spec (x : float) :
  finite_pos x = true ->
  exists (m : positive) (e : Z), Prim2SF x = S754_finite false m e.
Proof.
  unfold finite_pos. rewrite andb_true_iff, !ltb_spec.
  change (Prim2SF 0) with (S754_zero false).
  change (Prim2SF infinity) with (S754_infinity false).
  destruct (Prim2SF x) as [s | s | | s m e]; simpl; intros [H1 H2];
    try discriminate.
  - destruct s; discriminate.
  - destruct s; [discriminate |]. exists m, e. reflexivity.
Qed.

Lemma div_finite_pos_sign (x y : float) :
  finite_pos x = true -> finite_pos y = true ->
  has_sign false (Prim2SF (x / y)).
Proof.
  intros Hx Hy.
  destruct (finite_pos_spec x Hx) as (mx & ex & Ex).
  destruct (finite_pos_spec y Hy) as (my & ey & Ey).
  rewrite div_spec, Ex, Ey. unfold SF64div, SFdiv.
  destruct (SFdiv_core_binary prec emax (Z.pos mx) ex (Z.pos my) ey)
    as [[mz ez] lz] eqn:Hcore.
  apply binary_round_aux_sign.
  revert Hcore. unfold SFdiv_core_binary.
  set (m' := match (ex - ey - _)%Z with
             | Z0 => Z.pos mx
             | Z.pos _ => Z.shiftl (Z.pos mx) _
             | Z.neg _ => 0%Z
             end).
  assert (Hm' : (0 <= m')%Z).
  { unfold m'. destruct (ex - ey - _)%Z; try lia.
    apply Z.shiftl_nonneg. lia. }
  pose proof (Z.div_pos m' (Z.pos my) Hm' (Pos2Z.is_pos my)) as Hq.
  unfold Z.div in Hq.
  destruct (Z.div_eucl m' (Z.pos my)) as [q r]. intros [= <- _ _]. exact Hq.
Qed.

Lemma div_nan_r (x : float) : is_nan (x / nan) = true.
Proof.
  rewrite is_nan_spec, div_spec. change (Prim2SF nan) with S754_nan.
  destruct (Prim2SF x); reflexivity.
Qed.

Lemma SFmul_finite_not_nan (x : spec_float) (sy : bool) (my : positive) (ey : Z) :
  x <> S754_nan -> SFmul prec emax x (S754_finite sy my ey) <> S754_nan.
Proof.
  destruct x as [s | s | | s m e]; simpl; intros Hx; try discriminate;
    try congruence.
  intros H.
  pose proof (binary_round_aux_sign (xorb s sy) (Z.pos (m * my)) (e + ey)
                loc_Exact (Pos2Z.is_nonneg _)) as Hs.
  rewrite H in Hs. exact Hs.
Qed.

Lemma mul_100_not_nan (x : float) : is_nan x = false -> is_nan (x * 100) = false.
Proof.
  rewrite !is_nan_false_iff, mul_spec. intros Hx.
  destruct (Prim2SF 100) as [s | s | | s m e] eqn:E;
    try (vm_compute in E; discriminate E).
  apply SFmul_finite_not_nan, Hx.
Qed.

(** ** Rounding of an exact positive mantissa *)

Section Rounding.

Local Open Scope Z_scope.

Lemma iter_pos_nat {A : Type} (f : A -> A) (p : positive) (x : A) :
  iter_pos f p x = Nat.iter (Pos.to_nat p) f x.
Proof.
  revert x. induction p as [p IH | p IH |]; intros x; cbn [iter_pos].
  - rewrite !IH, Pos2Nat.inj_xI, <- Nat.iter_add.
    replace (S (2 * Pos.to_nat p)) with (Pos.to_nat p + Pos.to_nat p + 1)%nat by lia.
    rewrite (Nat.iter_add (Pos.to_nat p + Pos.to_nat p) 1). reflexivity.
  - rewrite !IH, Pos2Nat.inj_xO, <- Nat.iter_add. f_equal. lia.
  - reflexivity.
Qed.

Lemma shr_1_spec (q : Z) (r s : bool) :
  0 <= q ->
  shr_1 (Build_shr_record q r s) = Build_shr_record (Z.div2 q) (Z.odd q) (r || s).
Proof.
  intros Hq. destruct q as [| [p | p |] | p]; try reflexivity. lia.
Qed.

Lemma shr_inv_0 (m : Z) :
  0 <= m -> shr_inv m 0 (Build_shr_record m false false).
Proof.
  intros Hm. unfold shr_inv. cbn [shr_m shr_r shr_s].
  rewrite Z.pow_0_r, Z.mul_1_r, Z.sub_diag. repeat split; try lia.
Qed.

Lemma shr_inv_succ (m k : Z) (mrs : shr_record) :
  0 <= k -> shr_inv m k mrs -> shr_inv m (k + 1) (shr_1 mrs).
Proof.
  intros Hk. destruct mrs as [q r s]. unfold shr_inv. cbn [shr_m shr_r shr_s].
  intros (Hq & Hm & Hr & Hs). rewrite (shr_1_spec q r s Hq).
  cbn [shr_m shr_r shr_s]. rewrite Z.pow_add_r, Z.pow_1_r by lia.
  pose proof (Z.pow_pos_nonneg 2 k ltac:(lia) Hk) as HT.
  set (T := 2 ^ k) in *. clearbody T.
  pose proof (Z.div2_odd q) as Hdiv. set (h := Z.div2 q) in *. clearbody h.
  set (b := Z.odd q) in *. clearbody b.
  assert (Hh : 0 <= h) by (destruct b; cbn [Z.b2z] in Hdiv; lia).
  set (P := h * T). assert (HqT : q * T = 2 * P + Z.b2z b * T)
    by (unfold P; rewrite Hdiv at 1; ring).
  replace (h * (T * 2)) with (2 * P) by (unfold P; ring).
  replace ((h + 1) * (T * 2)) with (2 * P + 2 * T) by (unfold P; ring).
  replace ((q + 1) * T) with (q * T + T) in Hm by ring.
  rewrite HqT in *. clearbody P. subst r s.
  destruct b; cbn [Z.b2z] in *;
    repeat split; try lia;
    repeat match goal with
    | |- context [(?a <=? ?b)] => destruct (Z.leb_spec a b)
    | |- context [(?a =? ?b)] => destruct (Z.eqb_spec a b)
    end; cbn; try reflexivity; try lia.
Qed.

Lemma shr_inv_iter (m : Z) (n : nat) :
  0 <= m ->
  shr_inv m (Z.of_nat n) (Nat.iter n shr_1 (Build_shr_record m false false)).
Proof.
  intros Hm. induction n as [| n IH].
  - apply shr_inv_0, Hm.
  - rewrite Nat2Z.inj_succ, <- Z.add_1_r. cbn [Nat.iter nat_rect].
    apply shr_inv_succ; [lia | exact IH].
Qed.

Lemma round_nearest_even_spec (m k : Z) (mrs : shr_record) :
  0 <= k -> shr_inv m k mrs ->
  rounds_to m k (round_nearest_even (shr_m mrs) (loc_of_shr_record mrs)).
Proof.
  intros Hk. destruct mrs as [q r s]. unfold shr_inv. cbn [shr_m shr_r shr_s].
  intros (Hq & Hm & Hr & Hs). exists q. split; [exact Hq |]. split; [exact Hm |].
  pose proof (Z.pow_pos_nonneg 2 k ltac:(lia) Hk) as HT.
  set (T := 2 ^ k) in *. clearbody T.
  set (c := 2 * (m - q * T)) in *. clearbody c.
  unfold rn_up. subst r s.
  destruct (Z.leb_spec T c), (Z.eqb_spec c 0), (Z.eqb_spec c T),
    (Z.ltb_spec T c); cbn; try lia; try reflexivity.
  destruct (Z.odd q) eqn:Hodd.
  - rewrite <- Z.negb_odd, Hodd. reflexivity.
  - rewrite <- Z.negb_odd, Hodd. cbn. lia.
Qed.

(** The first shift of [binary_round_aux] on an exact positive mantissa. *)
Lemma shr_fexp_exact (m e : Z) :
  0 < m ->
  e <= fexp prec emax (Zdigits2 m + e) ->
  exists mrs : shr_record,
    shr_fexp prec emax m e loc_Exact
    = (mrs, fexp prec emax (Zdigits2 m + e))
    /\ shr_inv m (fexp prec emax (Zdigits2 m + e) - e) mrs.
Proof.
  intros Hm He. unfold shr_fexp, shr. cbn [shr_record_of_loc].
  set (E := fexp prec emax (Zdigits2 m + e)) in *. clearbody E.
  destruct (E - e) as [| p | p] eqn:Hn; try lia.
  - exists (Build_shr_record m false false).
    split; [f_equal; lia | apply shr_inv_0; lia].
  - exists (iter_pos shr_1 p (Build_shr_record m false false)).
    split; [f_equal; lia |].
    rewrite iter_pos_nat, <- (positive_nat_Z p). apply shr_inv_iter. lia.
Qed.

Lemma rounds_to_mono (m k m1 m' k' m1' j : Z) :
  0 <= k' -> 0 <= j -> k = k' + j ->
  m <= m' * 2 ^ j ->
  rounds_to m k m1 -> rounds_to m' k' m1' -> m1 <= m1'.
Proof.
  intros Hk' Hj -> Hmm (q & Hq & Hm & ->) (q' & Hq' & Hm' & ->).
  rewrite Z.pow_add_r in * by lia.
  pose proof (Z.pow_pos_nonneg 2 k' ltac:(lia) Hk') as HT.
  pose proof (Z.pow_pos_nonneg 2 j ltac:(lia) Hj) as HJ.
  set (T := 2 ^ k') in *. set (J := 2 ^ j) in *. clearbody T J.
  assert (Hle : q <= q') by nia.
  unfold rn_up.
  destruct (Z.eq_dec q q') as [-> | Hne].
  - assert (Hc : (m - q' * (T * J)) <= (m' - q' * T) * J) by nia.
    destruct (Z.ltb_spec (T * J) (2 * (m - q' * (T * J)))),
      (Z.eqb_spec (2 * (m - q' * (T * J))) (T * J)),
      (Z.ltb_spec T (2 * (m' - q' * T))),
      (Z.eqb_spec (2 * (m' - q' * T)) T);
      cbn; try lia; try nia; destruct (Z.odd q'); cbn; try lia; nia.
  - destruct ((T * J <? _) || _), ((T <? _) || _); lia.
Qed.

Lemma digits2_pos_size (m : positive) : digits2_pos m = Pos.size m.
Proof. induction m as [m IH | m IH |]; simpl; congruence. Qed.

Lemma Zdigits2_log2 (m : positive) :
  Zdigits2 (Z.pos m) = Z.log2 (Z.pos m) + 1.
Proof.
  unfold Zdigits2. rewrite digits2_pos_size.
  destruct m as [m | m |]; simpl; try reflexivity;
    rewrite Pos2Z.inj_succ; lia.
Qed.

Lemma Zdigits2_bounds (m : positive) :
  2 ^ (Zdigits2 (Z.pos m) - 1) <= Z.pos m < 2 ^ Zdigits2 (Z.pos m).
Proof.
  rewrite Zdigits2_log2.
  replace (Z.log2 (Z.pos m) + 1 - 1) with (Z.log2 (Z.pos m)) by lia.
  rewrite Z.add_1_r. apply Z.log2_spec. lia.
Qed.

Lemma fexp_spec (d : Z) : fexp prec emax d = Z.max (d - 53) (-1074).
Proof. reflexivity. Qed.

Lemma rn_up_range (q c T : Z) : 0 <= rn_up q c T <= 1.
Proof. unfold rn_up. destruct (_ || _); lia. Qed.

Lemma rounds_to_bounds (m : positive) (e m1 : Z) :
  let E := fexp prec emax (Zdigits2 (Z.pos m) + e) in
  e <= E ->
  rounds_to (Z.pos m) (E - e) m1 ->
  0 <= m1 <= two53 /\ (-1074 < E -> two52 <= m1).
Proof.
  intros E He (q & Hq & Hm & ->).
  pose proof (Zdigits2_bounds m) as Hd.
  pose proof (rn_up_range q (2 * (Z.pos m - q * 2 ^ (E - e))) (2 ^ (E - e))) as Hup.
  set (up := rn_up _ _ _) in *. clearbody up.
  assert (Hdpos : 0 < Zdigits2 (Z.pos m)) by (simpl; lia).
  set (d := Zdigits2 (Z.pos m)) in *.
  assert (HE : E = Z.max (d + e - 53) (-1074)) by reflexivity.
  clearbody E d.
  set (k := E - e) in *. assert (Hk : 0 <= k) by (unfold k; lia).
  pose proof (Z.pow_pos_nonneg 2 k ltac:(lia) Hk) as HT.
  split.
  - assert (H2d : 2 ^ d <= 2 ^ k * two53).
    { change two53 with (2 ^ 53). rewrite <- Z.pow_add_r by lia.
      apply Z.pow_le_mono_r; unfold k; lia. }
    set (T := 2 ^ k) in *. clearbody T. unfold two53 in *. nia.
  - intros Hn. assert (Hkd : k = d - 53) by (unfold k; lia).
    assert (H2d : 2 ^ (d - 1) = 2 ^ k * two52).
    { change two52 with (2 ^ 52). rewrite <- Z.pow_add_r by lia.
      f_equal. lia. }
    set (T := 2 ^ k) in *. clearbody T. unfold two52 in *. nia.
Qed.

Lemma renormalize (m1 E : Z) :
  0 <= m1 <= two53 -> -1074 <= E ->
  (let '(mrs, e) := shr_fexp prec emax m1 E loc_Exact in
   match shr_m mrs with
   | Z0 => S754_zero false
   | Z.pos p => if e <=? emax - prec then S754_finite false p e
                else S754_infinity false
   | Z.neg _ => S754_nan
   end) = finish m1 E.
Proof.
  intros Hm1 HE. unfold shr_fexp, shr, finish. cbn [shr_record_of_loc].
  rewrite fexp_spec. change (emax - prec) with 971.
  destruct m1 as [| p | p]; try lia.
  - cbn [Zdigits2]. destruct (Z.max (0 + E - 53) (-1074) - E) eqn:Hn;
      try lia; reflexivity.
  - destruct (Z.eqb_spec (Z.pos p) two53) as [Heq | Hne].
    + injection Heq as ->. cbn [Zdigits2 digits2_pos Pos.succ].
      replace (Z.max (54 + E - 53) (-1074) - E) with 1 by lia.
      reflexivity.
    + pose proof (Zdigits2_bounds p) as Hd.
      assert (Hd53 : Zdigits2 (Z.pos p) <= 53).
      { assert (H : Zdigits2 (Z.pos p) - 1 < 53).
        { apply (Z.pow_lt_mono_r_iff 2); [lia | lia |].
          change (2 ^ 53) with two53. lia. }
        lia. }
      destruct (Z.max (Zdigits2 (Z.pos p) + E - 53) (-1074) - E) eqn:Hn;
        try lia; reflexivity.
Qed.

Lemma binary_round_aux_exact (m : positive) (e : Z) :
  let E := fexp prec emax (Zdigits2 (Z.pos m) + e) in
  e <= E ->
  exists m1 : Z,
    rounds_to (Z.pos m) (E - e) m1
    /\ binary_round_aux prec emax false (Z.pos m) e loc_Exact = finish m1 E.
Proof.
  intros E He.
  destruct (shr_fexp_exact (Z.pos m) e (Pos2Z.is_pos m) He) as (mrs & Hshr & Hinv).
  fold E in Hshr, Hinv.
  assert (Hk : 0 <= E - e) by lia.
  pose proof (round_nearest_even_spec _ _ _ Hk Hinv) as Hrn.
  exists (round_nearest_even (shr_m mrs) (loc_of_shr_record mrs)).
  split; [exact Hrn |].
  unfold binary_round_aux. rewrite Hshr.
  apply renormalize.
  - exact (proj1 (rounds_to_bounds m e _ He Hrn)).
  - unfold E. rewrite fexp_spec. lia.
Qed.

Lemma SFleb_finite_pos (m m' : positive) (e e' : Z) :
  SFleb (S754_finite false m e) (S754_finite false m' e')
  = (e <? e') || ((e =? e') && (Z.pos m <=? Z.pos m')).
Proof.
  unfold SFleb, SFcompare.
  change (PosDef.Pos.compare_cont Eq m m') with (Z.pos m ?= Z.pos m').
  destruct (Z.compare_spec e e') as [He | He | He];
    destruct (Z.ltb_spec e e'), (Z.eqb_spec e e'); try lia;
    cbn [orb andb]; reflexivity.
Qed.

Lemma finish_leb_same (m1 m1' E : Z) :
  0 <= m1 -> m1 <= m1' -> m1' <= two53 ->
  SFleb (finish m1 E) (finish m1' E) = true.
Proof.
  intros H0 Hle Hmax. unfold finish, two53 in *.
  destruct m1 as [| p | p], m1' as [| p' | p']; try lia;
    order_cases; rewrite ?SFleb_finite_pos; order_cases;
    try reflexivity; try lia.
Qed.

Lemma finish_leb_next (m1 m1' E E' : Z) :
  0 <= m1 <= two53 -> two52 <= m1' <= two53 -> E < E' ->
  SFleb (finish m1 E) (finish m1' E') = true.
Proof.
  intros H1 H1' HE. unfold finish, two53, two52 in *.
  destruct m1 as [| p | p], m1' as [| p' | p']; try lia;
    order_cases; rewrite ?SFleb_finite_pos; order_cases;
    try reflexivity; try lia.
Qed.

Lemma bounded_spec (m : positive) (e : Z) :
  bounded prec emax m e = true ->
  e = Z.max (Zdigits2 (Z.pos m) + e - 53) (-1074) /\ e <= 971.
Proof.
  unfold bounded, canonical_mantissa. rewrite andb_true_iff, fexp_spec.
  intros [H1 H2]. apply Z.eqb_eq in H1. apply Z.leb_le in H2.
  change (emax - prec) with 971 in H2. cbn [Zdigits2]. lia.
Qed.

Lemma product_exponent (mc ma : positive) (ec ea : Z) :
  bounded prec emax mc ec = true -> bounded prec emax ma ea = true ->
  ec + ea <= fexp prec emax (Zdigits2 (Z.pos (mc * ma)) + (ec + ea)).
Proof.
  intros Hc Ha. apply bounded_spec in Hc, Ha. rewrite fexp_spec.
  rewrite !Zdigits2_log2 in *. rewrite Pos2Z.inj_mul.
  pose proof (Z.log2_mul_below (Z.pos mc) (Z.pos ma) ltac:(lia) ltac:(lia)).
  pose proof (Z.log2_nonneg (Z.pos mc)). pose proof (Z.log2_nonneg (Z.pos ma)).
  lia.
Qed.

Lemma SFleb_value (ma mb : positive) (ea eb : Z) :
  bounded prec emax ma ea = true -> bounded prec emax mb eb = true ->
  SFleb (S754_finite false ma ea) (S754_finite false mb eb) = true ->
  0 <= eb - ea /\ Z.pos ma <= Z.pos mb * 2 ^ (eb - ea).
Proof.
  intros Ha Hb. apply bounded_spec in Ha, Hb. rewrite SFleb_finite_pos.
  destruct (Z.ltb_spec ea eb) as [Hlt | Hge]; cbn [orb].
  - intros _. split; [lia |].
    pose proof (Zdigits2_bounds ma) as Hda. pose proof (Zdigits2_bounds mb) as Hdb.
    assert (Hdb53 : Zdigits2 (Z.pos mb) = 53) by lia.
    assert (Hda53 : Zdigits2 (Z.pos ma) <= 53) by lia.
    rewrite Hdb53 in Hdb. change (2 ^ (53 - 1)) with two52 in Hdb.
    assert (Hma : Z.pos ma < two53).
    { apply Z.lt_le_trans with (2 ^ Zdigits2 (Z.pos ma)); [lia |].
      change two53 with (2 ^ 53). apply Z.pow_le_mono_r; lia. }
    assert (H2 : 2 ^ 1 <= 2 ^ (eb - ea)) by (apply Z.pow_le_mono_r; lia).
    change (2 ^ 1) with 2 in H2. unfold two52, two53 in *. nia.
  - destruct (Z.eqb_spec ea eb) as [-> | Hne]; cbn [andb]; [| discriminate].
    intros H. apply Z.leb_le in H. rewrite Z.sub_diag, Z.pow_0_r. lia.
Qed.

(** Multiplication by a positive finite float preserves the order of
    positive finite floats. *)
Lemma SFmul_le_mono (mc ma mb : positive) (ec ea eb : Z) :
  bounded prec emax mc ec = true ->
  bounded prec emax ma ea = true ->
  bounded prec emax mb eb = true ->
  SFleb (S754_finite false ma ea) (S754_finite false mb eb) = true ->
  SFleb (SFmul prec emax (S754_finite false mc ec) (S754_finite false ma ea))
        (SFmul prec emax (S754_finite false mc ec) (S754_finite false mb eb))
  = true.
Proof.
  intros Hc Ha Hb Hab. cbn [SFmul xorb].
  pose proof (product_exponent mc ma ec ea Hc Ha) as HeX.
  pose proof (product_exponent mc mb ec eb Hc Hb) as HeY.
  destruct (SFleb_value ma mb ea eb Ha Hb Hab) as [Hj Hval].
  destruct (binary_round_aux_exact (mc * ma) (ec + ea) HeX) as (m1 & Hr1 & ->).
  destruct (binary_round_aux_exact (mc * mb) (ec + eb) HeY) as (m1' & Hr1' & ->).
  destruct (rounds_to_bounds _ _ _ HeX Hr1) as [Hb1 _].
  destruct (rounds_to_bounds _ _ _ HeY Hr1') as [Hb1' Hn1'].
  assert (HmX : Z.pos (mc * ma) <= Z.pos (mc * mb) * 2 ^ (eb - ea)).
  { rewrite !Pos2Z.inj_mul, <- Z.mul_assoc.
    apply Z.mul_le_mono_nonneg_l; [lia | exact Hval]. }
  assert (Hmag : Zdigits2 (Z.pos (mc * ma)) + (ec + ea)
                 <= Zdigits2 (Z.pos (mc * mb)) + (ec + eb)).
  { rewrite !Zdigits2_log2.
    pose proof (Z.log2_le_mono _ _ HmX) as Hlog.
    rewrite Z.log2_mul_pow2 in Hlog by lia. lia. }
  set (EX := fexp prec emax (Zdigits2 (Z.pos (mc * ma)) + (ec + ea))) in *.
  set (EY := fexp prec emax (Zdigits2 (Z.pos (mc * mb)) + (ec + eb))) in *.
  assert (HEX : -1074 <= EX) by (unfold EX; rewrite fexp_spec; lia).
  assert (HE : EX <= EY) by (unfold EX, EY; rewrite !fexp_spec; lia).
  destruct (Z.eq_dec EX EY) as [Heq | Hne].
  - rewrite <- Heq in *. apply finish_leb_same; try lia.
    apply (rounds_to_mono (Z.pos (mc * ma)) (EX - (ec + ea)) m1
             (Z.pos (mc * mb)) (EX - (ec + eb)) m1' (eb - ea));
      try lia; assumption.
  - apply finish_leb_next; lia.
Qed.

End Rounding.

(** ** Multiplication preserves the order *)

Lemma SFleb_zero_l (z : spec_float) :
  has_sign false z -> SFleb (S754_zero false) z = true.
Proof. destruct z as [s | s | | s m e]; simpl; intros H; subst; easy. Qed.

Lemma SFleb_infinity_r (z : spec_float) :
  has_sign false z -> SFleb z (S754_infinity false) = true.
Proof. destruct z as [s | s | | s m e]; simpl; intros H; subst; easy. Qed.

Lemma SFmul_sign (x : spec_float) (mc : positive) (ec : Z) :
  has_sign false x ->
  has_sign false (SFmul prec emax x (S754_finite false mc ec)).
Proof.
  destruct x as [s | s | | s m e]; simpl; intros H; subst; try easy.
  apply binary_round_aux_sign. apply Pos2Z.is_nonneg.
Qed.

Lemma SFmul_comm_finite (mx mc : positive) (ex ec : Z) :
  SFmul prec emax (S754_finite false mx ex) (S754_finite false mc ec)
  = SFmul prec emax (S754_finite false mc ec) (S754_finite false mx ex).
Proof. cbn [SFmul xorb]. rewrite Pos.mul_comm, Z.add_comm. reflexivity. Qed.

Lemma finite_pos_valid (x : float) :
  finite_pos x = true ->
  exists (m : positive) (e : Z),
    Prim2SF x = S754_finite false m e /\ bounded prec emax m e = true.
Proof.
  intros Hx. destruct (finite_pos_spec x Hx) as (m & e & E).
  exists m, e. split; [exact E |].
  pose proof (Prim2SF_valid x) as V. rewrite E in V. exact V.
Qed.

Lemma mul_sign (x c : float) :
  has_sign false (Prim2SF x) -> finite_pos c = true ->
  has_sign false (Prim2SF (x * c)).
Proof.
  intros Hx Hc. destruct (finite_pos_spec c Hc) as (mc & ec & Ec).
  rewrite mul_spec, Ec. apply SFmul_sign, Hx.
Qed.

Lemma abs_sign (x : float) :
  is_nan x = false -> has_sign false (Prim2SF (abs x)).
Proof.
  rewrite is_nan_spec, abs_spec. destruct (Prim2SF x); simpl; easy.
Qed.

(** [c * a <= c * b] when [a <= b] are positive and finite and [c] is
    zero, positive or plus infinity. *)
Lemma mul_le_mono_l (c a b : float) :
  has_sign false (Prim2SF c) ->
  finite_pos a = true -> finite_pos b = true ->
  (a <=? b) = true -> (c * a <=? c * b) = true.
Proof.
  intros Hc Ha Hb. rewrite !leb_spec, !mul_spec.
  destruct (finite_pos_valid a Ha) as (ma & ea & Ea & Va).
  destruct (finite_pos_valid b Hb) as (mb & eb & Eb & Vb).
  rewrite Ea, Eb. intros Hab.
  pose proof (Prim2SF_valid c) as Vc.
  destruct (Prim2SF c) as [s | s | | s mc ec]; simpl in Hc; subst;
    try contradiction.
  - reflexivity.
  - reflexivity.
  - apply SFmul_le_mono; assumption.
Qed.

(** [x * c <= y * c] when [x <= y] are zero, positive or plus infinity and
    [c] is positive and finite. *)
Lemma mul_le_mono_r (x y c : float) :
  has_sign false (Prim2SF x) -> has_sign false (Prim2SF y) ->
  finite_pos c = true ->
  (x <=? y) = true -> (x * c <=? y * c) = true.
Proof.
  intros Hx Hy Hc. rewrite !leb_spec, !mul_spec.
  destruct (finite_pos_valid c Hc) as (mc & ec & Ec & Vc). rewrite Ec.
  pose proof (Prim2SF_valid x) as Vx. pose proof (Prim2SF_valid y) as Vy.
  pose proof (SFmul_sign _ mc ec Hy) as Hyc.
  pose proof (SFmul_sign _ mc ec Hx) as Hxc.
  destruct (Prim2SF x) as [sx | sx | | sx mx ex]; simpl in Hx; subst;
    try contradiction.
  - intros _. apply SFleb_zero_l. exact Hyc.
  - destruct (Prim2SF y) as [sy | sy | | sy my ey]; simpl in Hy; subst;
      try contradiction; try discriminate. reflexivity.
  - destruct (Prim2SF y) as [sy | sy | | sy my ey]; simpl in Hy; subst;
      try contradiction; try discriminate.
    + intros _. apply SFleb_infinity_r. exact Hxc.
    + intros Hxy. rewrite (SFmul_comm_finite mx mc), (SFmul_comm_finite my mc).
      apply SFmul_le_mono; assumption.
Qed.

(** * Facts about columns *)

Lemma series_div_removelast (p0 : float) (rest : Series) :
  series_div rest (removelast (p0 :: rest)) = consecutive_ratios (p0 :: rest).
Proof.
  revert p0. induction rest as [| p1 rest IH]; intros p0.
  - reflexivity.
  - change (removelast (p0 :: p1 :: rest)) with (p0 :: removelast (p1 :: rest)).
    cbn [series_div consecutive_ratios]. rewrite IH. reflexivity.
Qed.

Lemma series_div_shift1 (p0 : float) (rest : Series) :
  series_div (p0 :: rest) (shift1 (p0 :: rest))
  = (p0 / nan) :: consecutive_ratios (p0 :: rest).
Proof.
  unfold shift1. cbn [series_div]. rewrite series_div_removelast. reflexivity.
Qed.

Lemma consecutive_ratios_length (taux : Series) :
  List.length (consecutive_ratios taux) = (List.length taux - 1)%nat.
Proof.
  induction taux as [| a [| b rest] IH]; try reflexivity.
  change (consecutive_ratios (a :: b :: rest))
    with ((b / a) :: consecutive_ratios (b :: rest)).
  cbn [List.length] in *. rewrite IH. lia.
Qed.

Lemma consecutive_ratios_nth (taux : Series) (i : nat) :
  (i < List.length (consecutive_ratios taux))%nat ->
  nth i (consecutive_ratios taux) nan = nth (S i) taux nan / nth i taux nan.
Proof.
  revert i. induction taux as [| a [| b rest] IH]; intros i Hi;
    try (simpl in Hi; lia).
  change (consecutive_ratios (a :: b :: rest))
    with ((b / a) :: consecutive_ratios (b :: rest)) in *.
  destruct i as [| i].
  - reflexivity.
  - cbn [List.length] in Hi. apply Nat.succ_lt_mono in Hi.
    change (nth (S i) ((b / a) :: consecutive_ratios (b :: rest)) nan)
      with (nth i (consecutive_ratios (b :: rest)) nan).
    rewrite (IH i Hi). reflexivity.
Qed.

Lemma consecutive_ratios_sign (taux : Series) :
  Forall (fun p => finite_pos p = true) taux ->
  Forall (fun r => has_sign false (Prim2SF r)) (consecutive_ratios taux).
Proof.
  induction taux as [| a [| b rest] IH]; intros H; try constructor.
  - inversion H as [| ? ? Ha Hrest]; subst.
    inversion Hrest as [| ? ? Hb _]; subst.
    apply div_finite_pos_sign; assumption.
  - apply IH. inversion H; assumption.
Qed.

Lemma dropna_all_kept (s : Series) :
  Forall (fun x => is_nan x = false) s -> dropna s = s.
Proof.
  induction 1 as [| x s Hx _ IH]; [reflexivity |].
  unfold dropna in *. cbn [filter]. rewrite Hx. cbn [negb]. rewrite IH.
  reflexivity.
Qed.

Lemma dropna_length (s : Series) :
  List.length (dropna s) = (List.length s - count_na s)%nat.
Proof.
  unfold dropna, count_na. induction s as [| x s IH]; [reflexivity |].
  cbn [filter]. destruct (is_nan x); cbn [negb List.length].
  - rewrite IH. lia.
  - rewrite IH. pose proof (filter_length_le is_nan s). lia.
Qed.

Lemma dropna_finite_pos (col : Series) :
  (forall p, In p col -> is_nan p = true \/ finite_pos p = true) ->
  Forall (fun p => finite_pos p = true) (dropna col).
Proof.
  intros H. apply Forall_forall. intros p Hp.
  apply filter_In in Hp. destruct Hp as [Hin Hnn].
  destruct (H p Hin) as [Hn | Hf]; [| exact Hf].
  rewrite Hn in Hnn. discriminate.
Qed.

(** * The plausibility clamp *)

Lemma clamp_volatility_in_band (v : float) :
  is_nan v = false -> in_band (clamp_volatility v) = true.
Proof.
  intros Hv. unfold clamp_volatility, py_min, py_max.
  destruct (vol_max <? v) eqn:Hhi.
  - vm_compute. reflexivity.
  - destruct (v <? vol_min) eqn:Hlo.
    + vm_compute. reflexivity.
    + unfold in_band. apply andb_true_intro. split.
      * apply ltb_false_leb; [exact Hv | reflexivity | exact Hlo].
      * apply ltb_false_leb; [reflexivity | exact Hv | exact Hhi].
Qed.

(** A clamped volatility is positive and finite, unless it is NaN. *)
Lemma clamp_volatility_finite_pos (v : float) :
  is_nan v = false -> finite_pos (clamp_volatility v) = true.
Proof.
  intros Hv. pose proof (clamp_volatility_in_band v Hv) as Hband.
  revert Hband. generalize (clamp_volatility v). intros x.
  unfold in_band, finite_pos. rewrite !andb_true_iff, !leb_spec, !ltb_spec.
  change (Prim2SF 0) with (S754_zero false).
  change (Prim2SF infinity) with (S754_infinity false).
  destruct (Prim2SF vol_min) as [s0 | s0 | | s0 m0 e0] eqn:E0;
    try (vm_compute in E0; discriminate E0).
  destruct (Prim2SF vol_max) as [s1 | s1 | | s1 m1 e1] eqn:E1;
    try (vm_compute in E1; discriminate E1).
  assert (Hs0 : s0 = false) by (vm_compute in E0; congruence).
  assert (Hs1 : s1 = false) by (vm_compute in E1; congruence).
  subst s0 s1. clear E0 E1.
  destruct (Prim2SF x) as [s | s | | s m e]; unfold SFleb, SFltb; simpl;
    intros [H1 H2]; try discriminate; destruct s; try discriminate;
    split; reflexivity.
Qed.

Lemma clamp_volatility_bounds :
  clamp_volatility vol_min = vol_min /\ clamp_volatility vol_max = vol_max.
Proof. split; vm_compute; reflexivity. Qed.

(** C2.  The clamp does not bring every input into the band: on NaN both
    comparisons of [max(min(v, vol_max), vol_min)] are false, so NaN is
    returned as it came and lies outside of [[vol_min, vol_max]].  (Every
    other input is brought into the band, see [clamp_volatility_in_band],
    and the bounds are fixed points, see [clamp_volatility_bounds].) *)
Theorem clamp_volatility_nan_escapes :
  is_nan (clamp_volatility nan) = true
  /\ in_band (clamp_volatility nan) = false.
Proof. split; vm_compute; reflexivity. Qed.

(** * Input validation *)

(** C4.  [validate_inputs] does not always fail or return an integer of at
    least 1.  For an accepted amount and two dates on which the parser does
    not raise: when one of them is [NaT] (the answer of [pd.to_datetime] to
    an empty string) every test of lines 37-41 is false and the function
    returns NaN; when one timestamp has a time zone and the other has none,
    the comparison of line 37 raises a [TypeError], which is not one of
    the function's own errors. *)
Theorem validate_inputs_escapes (lib : Library) (montant_usd : float)
    (date_fact date_ech : string) (f e : Timestamp) :
  (montant_usd <=? 0) = false ->
  to_datetime lib date_fact = Ok f ->
  to_datetime lib date_ech = Ok e ->
  (f = NaT \/ e = NaT ->
   validate_inputs lib montant_usd date_fact date_ech = Ok NanDays)
  /\
  (forall (zf ze : bool) (x y : Z),
      f = Stamp zf x -> e = Stamp ze y -> zf <> ze ->
      exists err : exn,
        validate_inputs lib montant_usd date_fact date_ech = Raise err
        /\ exn_kind err = TypeError).
Proof.
  intros Hm Hf He. unfold validate_inputs. rewrite Hm, Hf, He. cbn [bind].
  split.
  - intros [-> | ->].
    + destruct e; reflexivity.
    + destruct f; reflexivity.
  - intros zf ze x y -> -> Hz. cbn [timestamp_lt].
    destruct (Bool.eqb ze zf) eqn:Heq.
    + apply Bool.eqb_prop in Heq. congruence.
    + cbn [bind]. eexists. split; reflexivity.
Qed.

Lemma validate_inputs_escapes_witness :
  validate_inputs replay_library 100 "" "" = Ok NanDays
  /\ validate_inputs replay_library 100 "2025-01-01" "" = Ok NanDays
  /\ exists err : exn,
      validate_inputs replay_library 100 "2025-02-01T00:00:00+00:00"
        "2025-01-01"
      = Raise err
      /\ exn_kind err = TypeError.
Proof.
  split; [| split].
  - apply (proj1 (validate_inputs_escapes replay_library 100 "" "" NaT NaT
                    eq_refl eq_refl eq_refl)).
    left. reflexivity.
  - apply (proj1 (validate_inputs_escapes replay_library 100 "2025-01-01" ""
                    (Stamp false 1735689600000000000) NaT
                    eq_refl eq_refl eq_refl)).
    right. reflexivity.
  - apply (proj2 (validate_inputs_escapes replay_library 100
                    "2025-02-01T00:00:00+00:00" "2025-01-01"
                    (Stamp true 1738368000000000000)
                    (Stamp false 1735689600000000000)
                    eq_refl eq_refl eq_refl)
             true false 1738368000000000000%Z 1735689600000000000%Z
             eq_refl eq_refl).
    discriminate.
Defined.

(** X22.  [validate_inputs] raises the amount error whenever the amount is
    [<= 0].  For an accepted amount and two dates that parse to timestamps
    which both have a time zone or both have none, it raises the order
    error when the settlement instant is before the invoice instant; and,
    when pandas represents the difference of the two instants, it raises
    the horizon error when that difference is under one day, equal
    instants included, and otherwise returns the whole number of days
    between them, at least 1.  The checks run in this order. *)
Theorem validate_inputs_spec (lib : Library) (montant_usd : float)
    (date_fact date_ech : string) :
  ((montant_usd <=? 0) = true ->
   validate_inputs lib montant_usd date_fact date_ech
   = Raise (mk_exn ValueError msg_montant))
  /\
  (forall (z : bool) (f e : Z),
      (montant_usd <=? 0) = false ->
      to_datetime lib date_fact = Ok (Stamp z f) ->
      to_datetime lib date_ech = Ok (Stamp z e) ->
      ((e < f)%Z ->
       validate_inputs lib montant_usd date_fact date_ech
       = Raise (mk_exn ValueError msg_ordre))
      /\ (timestamp_sub lib e f = Ok (e - f)%Z ->
          ((f <= e)%Z -> (timedelta_days e f < 1)%Z ->
           validate_inputs lib montant_usd date_fact date_ech
           = Raise (mk_exn ValueError msg_horizon))
          /\ (e = f ->
              validate_inputs lib montant_usd date_fact date_ech
              = Raise (mk_exn ValueError msg_horizon))
          /\ ((f <= e)%Z -> (1 <= timedelta_days e f)%Z ->
              validate_inputs lib montant_usd date_fact date_ech
              = Ok (IntDays (timedelta_days e f))))).
Proof.
  unfold validate_inputs. split.
  - intros ->. reflexivity.
  - intros z f e -> -> ->. cbn [bind timestamp_lt timestamp_days].
    rewrite Bool.eqb_reflx. cbn [bind].
    assert (Hsame : timedelta_days f f = 0%Z).
    { unfold timedelta_days. rewrite Z.sub_diag. reflexivity. }
    split.
    + intros Hlt. apply Z.ltb_lt in Hlt. rewrite Hlt. reflexivity.
    + intros Hsub. fold (timedelta_days e f) in *. repeat split.
      * intros Hle Hd. apply Z.ltb_ge in Hle. rewrite Hle, Hsub. cbn [bind].
        fold (timedelta_days e f). cbn [days_ltb].
        apply Z.ltb_lt in Hd. rewrite Hd. reflexivity.
      * intros ->. rewrite Z.ltb_irrefl, Hsub. cbn [bind].
        fold (timedelta_days f f). rewrite Hsame. reflexivity.
      * intros Hle Hd. apply Z.ltb_ge in Hle. rewrite Hle, Hsub. cbn [bind].
        fold (timedelta_days e f). cbn [days_ltb].
        apply Z.ltb_ge in Hd. rewrite Hd. reflexivity.
Qed.

Lemma validate_inputs_witness :
  validate_inputs replay_library (-1) "2025-01-01" "2025-02-01"
  = Raise (mk_exn ValueError msg_montant)
  /\ validate_inputs replay_library 100 "2025-02-01" "2025-01-01"
     = Raise (mk_exn ValueError msg_ordre)
  /\ validate_inputs replay_library 100 "2025-01-01" "2025-01-01"
     = Raise (mk_exn ValueError msg_horizon)
  /\ validate_inputs replay_library 10000 "2025-04-23" "2025-06-23"
     = Ok (IntDays 61).
Proof.
  split; [| split; [| split]].
  - apply (proj1 (validate_inputs_spec replay_library (-1)
                    "2025-01-01" "2025-02-01")).
    vm_compute. reflexivity.
  - refine (proj1 (proj2 (validate_inputs_spec replay_library 100
                            "2025-02-01" "2025-01-01")
                     false 1738368000000000000%Z 1735689600000000000%Z
                     _ _ _) _);
      [reflexivity | vm_compute; reflexivity | vm_compute; reflexivity | lia].
  - refine (proj1 (proj2 (proj2 (proj2 (validate_inputs_spec replay_library 100
                            "2025-01-01" "2025-01-01")
                     false 1735689600000000000%Z 1735689600000000000%Z
                     _ _ _) _)) _);
      [reflexivity | vm_compute; reflexivity | vm_compute; reflexivity
      | vm_compute; reflexivity | reflexivity].
  - refine (proj2 (proj2 (proj2 (proj2 (validate_inputs_spec replay_library 10000
                            "2025-04-23" "2025-06-23")
                     false 1745366400000000000%Z 1750636800000000000%Z
                     _ _ _) _)) _ _);
      [reflexivity | vm_compute; reflexivity | vm_compute; reflexivity
      | vm_compute; reflexivity | lia | vm_compute; discriminate].
Defined.

(** * The historical series *)

(** C6.  The fetch of the historical series raises a data error
    (DataUnavailable, the messages [msg_historique_vide] and
    [msg_historique_court]) when the frame is empty, and when the selected
    column has fewer than 250 values that are not missing; with 250 or more
    it returns them.  The selected column is [Adj Close] when the frame has
    it, [Close] otherwise. *)
Theorem donnees_historiques_spec (m : Market) (data : DataFrame) :
  history m = Ok data ->
  (df_empty data = true ->
   donnees_historiques m = Raise (mk_exn ValueError msg_historique_vide))
  /\
  (forall col : Series,
      df_empty data = false ->
      (df_has_column "Adj Close" data = true
       /\ df_getitem "Adj Close" data = Ok col)
      \/ (df_has_column "Adj Close" data = false
          /\ df_getitem "Close" data = Ok col) ->
      ((List.length (dropna col) < 250)%nat ->
       donnees_historiques m = Raise (mk_exn ValueError msg_historique_court))
      /\ ((250 <= List.length (dropna col))%nat ->
          donnees_historiques m = Ok (dropna col))).
Proof.
  intros Hm. unfold donnees_historiques. rewrite Hm. cbn [bind]. split.
  - intros ->. reflexivity.
  - intros col -> [[-> ->] | [-> ->]]; cbn [bind]; split; intros Hlen.
    + apply Nat.ltb_lt in Hlen. rewrite Hlen. reflexivity.
    + apply Nat.ltb_ge in Hlen. rewrite Hlen. reflexivity.
    + apply Nat.ltb_lt in Hlen. rewrite Hlen. reflexivity.
    + apply Nat.ltb_ge in Hlen. rewrite Hlen. reflexivity.
Qed.

Lemma donnees_historiques_witness :
  donnees_historiques flat_market = Ok (repeat 10 250)
  /\ donnees_historiques short_market
     = Raise (mk_exn ValueError msg_historique_court)
  /\ donnees_historiques (mk_market (Ok (mk_df [] [])) (Ok (mk_df [] [])))
     = Raise (mk_exn ValueError msg_historique_vide).
Proof.
  split; [| split].
  - refine (proj2 (proj2 (donnees_historiques_spec flat_market _ eq_refl)
                     (repeat 10 250) _ _) _).
    + reflexivity.
    + right. split; reflexivity.
    + vm_compute. apply le_n.
  - refine (proj1 (proj2 (donnees_historiques_spec short_market _ eq_refl)
                     (nan :: repeat 10 249) _ _) _).
    + reflexivity.
    + left. split; reflexivity.
    + vm_compute. apply le_n.
  - apply (proj1 (donnees_historiques_spec
                    (mk_market (Ok (mk_df [] [])) (Ok (mk_df [] []))) _ eq_refl)).
    reflexivity.
Defined.

(** * The return transform *)

Section ReturnTransform.

Variable lib : Library.

Hypothesis np_log_nan : forall x, is_nan x = true -> is_nan (np_log lib x) = true.

Hypothesis np_log_defined :
  forall x, is_nan x = false -> (x <? 0) = false -> is_nan (np_log lib x) = false.

Lemma rendements_pct_prices (taux : Series) :
  Forall (fun p => finite_pos p = true) taux ->
  rendements_pct lib taux
  = map (fun r => np_log lib r * 100) (consecutive_ratios taux).
Proof.
  intros Hpos. unfold rendements_pct.
  destruct taux as [| p0 rest].
  - reflexivity.
  - rewrite series_div_shift1. cbn [map]. unfold dropna at 1. cbn [filter].
    rewrite (np_log_nan _ (div_nan_r p0)). cbn [negb].
    fold (dropna (map (np_log lib) (consecutive_ratios (p0 :: rest)))).
    rewrite dropna_all_kept.
    + rewrite map_map. reflexivity.
    + apply Forall_map. eapply Forall_impl; [| exact (consecutive_ratios_sign _ Hpos)].
      intros r Hr. cbv beta. apply np_log_defined.
      * exact (has_sign_not_nan _ _ Hr).
      * exact (has_sign_false_not_neg _ Hr).
Qed.

(** C5.  On a column of prices that are finite and positive where they are
    not missing, the returns in percent number the length of the column
    minus one minus the count of missing values (subtraction on natural
    numbers); the return of rank [i] is [np.log] of price [i+1] over price
    [i], times 100, in the column without its missing values; and none is
    NaN.  [np.log] is taken to be NaN on NaN and on negative numbers only. *)
Theorem rendements_pct_spec (col : Series) :
  (forall p, In p col -> is_nan p = true \/ finite_pos p = true) ->
  let taux := dropna col in
  let out := rendements_pct lib taux in
  List.length out = (List.length col - 1 - count_na col)%nat
  /\ (forall i : nat,
         (i < List.length out)%nat ->
         nth i out nan
         = np_log lib (nth (S i) taux nan / nth i taux nan) * 100)
  /\ forallb (fun x => negb (is_nan x)) out = true.
Proof.
  intros Hcol taux out.
  pose proof (dropna_finite_pos col Hcol) as Hpos. fold taux in Hpos.
  assert (Hout : out = map (fun r => np_log lib r * 100) (consecutive_ratios taux))
    by (apply rendements_pct_prices; exact Hpos).
  rewrite Hout. split; [| split].
  - rewrite length_map, consecutive_ratios_length. unfold taux.
    rewrite dropna_length. lia.
  - intros i Hi. rewrite length_map in Hi.
    rewrite (nth_indep _ nan (np_log lib nan * 100))
      by (rewrite length_map; exact Hi).
    rewrite (map_nth (fun r => np_log lib r * 100)).
    rewrite consecutive_ratios_nth by exact Hi. reflexivity.
  - apply forallb_forall. intros x Hx. apply in_map_iff in Hx.
    destruct Hx as (r & <- & Hr).
    pose proof (consecutive_ratios_sign taux Hpos) as Hs.
    rewrite Forall_forall in Hs. specialize (Hs r Hr).
    rewrite mul_100_not_nan; [reflexivity |].
    apply np_log_defined.
    + exact (has_sign_not_nan _ _ Hs).
    + exact (has_sign_false_not_neg _ Hs).
Qed.

End ReturnTransform.

Lemma replay_log_nan (x : float) :
  is_nan x = true -> is_nan (np_log replay_library x) = true.
Proof.
  intros H. cbn [np_log replay_library]. unfold replay_log. rewrite H.
  reflexivity.
Qed.

Lemma replay_log_defined (x : float) :
  is_nan x = false -> (x <? 0) = false ->
  is_nan (np_log replay_library x) = false.
Proof.
  intros H1 H2. cbn [np_log replay_library]. unfold replay_log.
  rewrite H1, H2. cbn [orb].
  destruct (x <? 1); [reflexivity |]. destruct (1 <? x); reflexivity.
Qed.

Lemma rendements_pct_witness :
  let col := [10; nan; 10.5; 10.25; nan; 9.75] in
  let taux := dropna col in
  let out := rendements_pct replay_library taux in
  List.length out = (List.length col - 1 - count_na col)%nat
  /\ (forall i : nat,
         (i < List.length out)%nat ->
         nth i out nan
         = np_log replay_library (nth (S i) taux nan / nth i taux nan) * 100)
  /\ forallb (fun x => negb (is_nan x)) out = true.
Proof.
  apply (rendements_pct_spec replay_library replay_log_nan replay_log_defined
           [10; nan; 10.5; 10.25; nan; 9.75]).
  intros p Hp. cbn [In] in Hp.
  repeat (destruct Hp as [<- | Hp];
          [first [left; vm_compute; reflexivity
                 | right; vm_compute; reflexivity] |]).
  contradiction.
Defined.

(** * The pipeline *)

Lemma calculer_var_try_ok (lib : Library) (m : Market) (montant_usd : float)
    (date_fact date_ech : string) (stress_test : bool) (out : Stdout)
    (h : py_days) (r v nu : float) :
  validate_inputs lib montant_usd date_fact date_ech = Ok h ->
  get_taux_usd_mad m = inr r ->
  (taux <- donnees_historiques m ;; volatilite lib taux) = Ok (v, nu) ->
  calculer_var_try lib m montant_usd date_fact date_ech stress_test out
  = (Ok (inr (calcul_var lib montant_usd r h (clamp_volatility v) nu stress_test)),
     py_print ("Adjusted volatility: "
               ++ format_4f lib (clamp_volatility v * 100) ++ "%") out).
Proof.
  intros Hv Hr Hfit. unfold calculer_var_try. rewrite Hv, Hr, Hfit. reflexivity.
Qed.

(** C1.  When validation, the two fetches and the fit succeed, the figures
    of the report are: daily VaR = |t.ppf(0.05, nu)| x volatility (the 95%
    level, tail 0.05), horizon VaR = daily VaR x sqrt(horizon), booked
    amount = amount x rate, potential loss = horizon VaR x amount x rate,
    estimated settlement = booked amount - potential loss; with the stress
    test on, the stressed horizon VaR is |t.ppf(0.01, nu)| x volatility x
    sqrt(horizon) (the 99% level) with the same volatility and nu. *)
Theorem calcul_var_formulas (lib : Library) (m : Market) (montant_usd : float)
    (date_fact date_ech : string) (stress_test : bool) (out : Stdout)
    (h : py_days) (r v nu : float) (taux : Series) :
  validate_inputs lib montant_usd date_fact date_ech = Ok h ->
  get_taux_usd_mad m = inr r ->
  donnees_historiques m = Ok taux ->
  volatilite lib taux = Ok (v, nu) ->
  exists c : Calcul,
    fst (calculer_var_try lib m montant_usd date_fact date_ech stress_test out)
    = Ok (inr c)
    /\ var_journaliere c = abs (t_ppf lib 0.05 nu) * clamp_volatility v
    /\ var_horizon c = var_journaliere c * np_sqrt lib h
    /\ montant_comptabilise c = montant_usd * r
    /\ perte_potentielle c = var_horizon c * montant_usd * r
    /\ montant_estime c = montant_comptabilise c - perte_potentielle c
    /\ var_journaliere_pct c = var_journaliere c * 100
    /\ var_horizon_pct c = var_horizon c * 100
    /\ (stress_test = true ->
        exists s : Stress,
          stress c = Some s
          /\ var_horizon_stress s
             = abs (t_ppf lib 0.01 nu) * clamp_volatility v * np_sqrt lib h
          /\ perte_potentielle_stress s = var_horizon_stress s * montant_usd * r).
Proof.
  intros Hv Hr Hd Hfit.
  eexists. split.
  - rewrite (calculer_var_try_ok lib m montant_usd date_fact date_ech
               stress_test out h r v nu Hv Hr).
    + reflexivity.
    + rewrite Hd. exact Hfit.
  - cbn [var_journaliere var_horizon montant_comptabilise perte_potentielle
         montant_estime var_journaliere_pct var_horizon_pct stress calcul_var].
    repeat split.
    intros ->. eexists. split; [reflexivity |]. split; reflexivity.
Qed.

Lemma calcul_var_formulas_witness :
  exists c : Calcul,
    fst (calculer_var_try replay_library flat_market 10000
           "2025-04-23" "2025-06-23" true [])
    = Ok (inr c)
    /\ var_journaliere c = abs (-2.015) * clamp_volatility (0.25 / 100)
    /\ var_horizon c = var_journaliere c * replay_sqrt (IntDays 61)
    /\ montant_comptabilise c = 10000 * 10
    /\ perte_potentielle c = var_horizon c * 10000 * 10
    /\ montant_estime c = montant_comptabilise c - perte_potentielle c
    /\ var_journaliere_pct c = var_journaliere c * 100
    /\ var_horizon_pct c = var_horizon c * 100
    /\ (true = true ->
        exists s : Stress,
          stress c = Some s
          /\ var_horizon_stress s
             = abs (-3.365) * clamp_volatility (0.25 / 100) * replay_sqrt (IntDays 61)
          /\ perte_potentielle_stress s = var_horizon_stress s * 10000 * 10).
Proof.
  apply (calcul_var_formulas replay_library flat_market 10000
           "2025-04-23" "2025-06-23" true [] (IntDays 61) 10 (0.25 / 100) 5
           (repeat 10 250));
    vm_compute; reflexivity.
Defined.

(** C7.  No finiteness test exists in the pipeline: it raises exactly when
    the validation raises or, the rate being fetched, the historical series
    or the fit raises; never because of the value of a figure. *)
Theorem calculer_var_try_raises (lib : Library) (m : Market)
    (montant_usd : float) (date_fact date_ech : string) (stress_test : bool)
    (out : Stdout) (e : exn) :
  fst (calculer_var_try lib m montant_usd date_fact date_ech stress_test out)
  = Raise e
  <->
  validate_inputs lib montant_usd date_fact date_ech = Raise e
  \/ (exists (h : py_days) (r : float),
         validate_inputs lib montant_usd date_fact date_ech = Ok h
         /\ get_taux_usd_mad m = inr r
         /\ (donnees_historiques m = Raise e
             \/ exists taux : Series,
                 donnees_historiques m = Ok taux
                 /\ volatilite lib taux = Raise e)).
Proof.
  unfold calculer_var_try.
  destruct (validate_inputs lib montant_usd date_fact date_ech) as [h | e0].
  - destruct (get_taux_usd_mad m) as [msg | r].
    + split; [discriminate |].
      intros [H | (h' & r' & _ & H & _)]; discriminate H.
    + destruct (donnees_historiques m) as [taux | e1]; cbn [bind].
      * destruct (volatilite lib taux) as [[v nu] | e2] eqn:Hfit; cbn [fst].
        -- split; [discriminate |].
           intros [H | (h' & r' & _ & _ & [H | (t & [= <-] & H)])];
             try discriminate H.
           rewrite Hfit in H. discriminate H.
        -- split.
           ++ intros [= <-]. right. exists h, r. repeat split.
              right. exists taux. split; [reflexivity | exact Hfit].
           ++ intros [H | (h' & r' & _ & _ & [H | (t & [= <-] & H)])];
                try discriminate H.
              rewrite Hfit in H. injection H as <-. reflexivity.
      * cbn [fst]. split.
        -- intros [= <-]. right. exists h, r. repeat split. left. reflexivity.
        -- intros [H | (h' & r' & _ & _ & [H | (t & H & _)])];
             try discriminate H. injection H as <-. reflexivity.
  - cbn [fst]. split.
    + intros [= <-]. left. reflexivity.
    + intros [H | (h' & r' & H & _)]; [| discriminate H].
      injection H as <-. reflexivity.
Qed.

Lemma calculer_var_try_raises_witness :
  fst (calculer_var_try replay_library short_market 10000
         "2025-04-23" "2025-06-23" false [])
  = Raise (mk_exn ValueError msg_historique_court).
Proof.
  apply (proj2 (calculer_var_try_raises replay_library short_market 10000
                  "2025-04-23" "2025-06-23" false []
                  (mk_exn ValueError msg_historique_court))).
  right. exists (IntDays 61), 10. repeat split. left. vm_compute. reflexivity.
Defined.

(** C7, the claim as stated fails: an amount of 1e308 dollars at a rate of
    10 gives an infinite booked amount and an infinite settlement estimate;
    no error is raised, the report is returned with the infinite figures. *)
Lemma non_finite_report_returned :
  let c := calcul_var replay_library 1e308 10 (IntDays 61) (0.25 / 100) 5 false in
  fst (calculer_var_try replay_library flat_market 1e308
         "2025-04-23" "2025-06-23" false [])
  = Ok (inr c)
  /\ calculer_var replay_library flat_market 1e308 "2025-04-23" "2025-06-23"
       false []
     = (format_resume replay_library c, ["Adjusted volatility: #%"])
  /\ montant_comptabilise c = infinity
  /\ montant_estime c = infinity.
Proof. vm_compute. repeat split. Qed.

(** C8.  [calculer_var] always returns a text and nothing else.  The text
    is the message of the exception raised in the [try] block behind the
    prefix of the handler, or the error text [get_taux_usd_mad] made of the
    exception it caught, or the report of a calculation carried to its
    end: an error text holds no figure. *)
Theorem calculer_var_total (lib : Library) (m : Market) (montant_usd : float)
    (date_fact date_ech : string) (stress_test : bool) (out : Stdout) :
  let run :=
    calculer_var_try lib m montant_usd date_fact date_ech stress_test out in
  let text :=
    fst (calculer_var lib m montant_usd date_fact date_ech stress_test out) in
  (exists e : exn, fst run = Raise e /\ text = "Erreur : " ++ exn_msg e)
  \/ (exists e : exn,
         get_taux_usd_mad_try m = Raise e
         /\ text = "Erreur lors de la récupération du taux : " ++ exn_msg e)
  \/ (exists c : Calcul, fst run = Ok (inr c) /\ text = format_resume lib c).
Proof.
  cbv zeta. unfold calculer_var.
  destruct (calculer_var_try lib m montant_usd date_fact date_ech stress_test out)
    as [[[message | c] | e] out'] eqn:Hrun; cbn [fst].
  - right. left. revert Hrun. unfold calculer_var_try, get_taux_usd_mad.
    destruct (validate_inputs lib montant_usd date_fact date_ech);
      [| discriminate].
    destruct (get_taux_usd_mad_try m) as [r | e].
    + destruct (taux <- donnees_historiques m ;; volatilite lib taux)
        as [[v nu] | e]; discriminate.
    + intros [= <- _]. exists e. split; reflexivity.
  - right. right. exists c. split; reflexivity.
  - left. exists e. split; reflexivity.
Qed.

(** * Two invocations *)







(** The agreement of the two fits is needed: with a library whose fit
    answers another conditional volatility on the same returns, the second
    invocation ends with other figures. *)
Lemma calculer_var_fit_dependence :
  fst (calculer_var_try replay_library flat_market 10000
         "2025-04-23" "2025-06-23" true [])
  <> fst (calculer_var_try other_library flat_market 10000
            "2025-04-23" "2025-06-23" true []).
Proof. vm_compute. discriminate. Qed.

(** C10.  With the same request and snapshot, the run with the stress test
    and the run without it print the same line and fail alike; when they
    succeed, every baseline figure is the same, the run without has no
    stressed figure, and the report of the run with the stress test is the
    other report followed by the two stressed lines. *)
Theorem stress_test_frame (lib : Library) (m : Market) (montant_usd : float)
    (date_fact date_ech : string) (out : Stdout) :
  let off := calculer_var_try lib m montant_usd date_fact date_ech false out in
  let on := calculer_var_try lib m montant_usd date_fact date_ech true out in
  snd on = snd off
  /\ match fst off, fst on with
     | Ok (inr c0), Ok (inr c1) =>
         taux_usd_mad c1 = taux_usd_mad c0
         /\ montant_comptabilise c1 = montant_comptabilise c0
         /\ montant_estime c1 = montant_estime c0
         /\ var_journaliere_pct c1 = var_journaliere_pct c0
         /\ horizon c1 = horizon c0
         /\ var_horizon_pct c1 = var_horizon_pct c0
         /\ perte_potentielle c1 = perte_potentielle c0
         /\ stress c0 = None
         /\ exists s : Stress,
             stress c1 = Some s
             /\ format_resume lib c1
                = format_resume lib c0 ++ resume_stress lib s
     | Ok (inl t0), Ok (inl t1) => t1 = t0
     | Raise e0, Raise e1 => e1 = e0
     | _, _ => False
     end.
Proof.
  cbv zeta. unfold calculer_var_try.
  destruct (validate_inputs lib montant_usd date_fact date_ech) as [h | e];
    [| split; reflexivity].
  destruct (get_taux_usd_mad m) as [message | r]; [split; reflexivity |].
  destruct (taux <- donnees_historiques m ;; volatilite lib taux)
    as [[v nu] | e]; [| split; reflexivity].
  cbn [fst snd]. split; [reflexivity |].
  cbn [calcul_var taux_usd_mad montant_comptabilise montant_estime
       var_journaliere_pct horizon var_horizon_pct perte_potentielle stress].
  repeat (split; [reflexivity |]).
  eexists. split; reflexivity.
Qed.

(** * Further facts about the order of floats *)

Ltac compare_cases :=
  repeat match goal with
    | |- context [PosDef.Pos.compare_cont Eq ?a ?b] =>
        change (PosDef.Pos.compare_cont Eq a b) with (Z.pos a ?= Z.pos b)%Z
    end;
  repeat match goal with
    | |- context [Z.compare ?a ?b] => destruct (Z.compare_spec a b)
    end.


Lemma SFltb_leb_trans (x y z : spec_float) :
  SFltb x y = true -> SFleb y z = true -> SFltb x z = true.
Proof.
  destruct x as [s1 | s1 | | s1 m1 e1], y as [s2 | s2 | | s2 m2 e2],
    z as [s3 | s3 | | s3 m3 e3];
    try destruct s1; try destruct s2; try destruct s3;
    unfold SFleb, SFltb, SFcompare; try (intros; reflexivity);
    try (intros; discriminate);
    compare_cases; intros; try reflexivity; try discriminate; lia.
Qed.

Lemma SFleb_ltb_trans (x y z : spec_float) :
  SFleb x y = true -> SFltb y z = true -> SFltb x z = true.
Proof.
  destruct x as [s1 | s1 | | s1 m1 e1], y as [s2 | s2 | | s2 m2 e2],
    z as [s3 | s3 | | s3 m3 e3];
    try destruct s1; try destruct s2; try destruct s3;
    unfold SFleb, SFltb, SFcompare; try (intros; reflexivity);
    try (intros; discriminate);
    compare_cases; intros; try reflexivity; try discriminate; lia.
Qed.


Lemma ltb_leb_trans (a b c : float) :
  (a <? b) = true -> (b <=? c) = true -> (a <? c) = true.
Proof. rewrite !leb_spec, !ltb_spec. apply SFltb_leb_trans. Qed.

Lemma leb_ltb_trans (a b c : float) :
  (a <=? b) = true -> (b <? c) = true -> (a <? c) = true.
Proof. rewrite !leb_spec, !ltb_spec. apply SFleb_ltb_trans. Qed.

Lemma leb_ltb_false (a b : float) : (a <=? b) = true -> (b <? a) = false.
Proof.
  rewrite leb_spec, ltb_spec. unfold SFleb, SFltb.
  rewrite (SFcompare_antisym (Prim2SF a) (Prim2SF b)).
  destruct (SFcompare (Prim2SF a) (Prim2SF b)) as [[ | | ] | ]; simpl;
    intros H; try discriminate H; reflexivity.
Qed.


Lemma ltb_not_nan (a b : float) :
  (a <? b) = true -> is_nan a = false /\ is_nan b = false.
Proof.
  rewrite ltb_spec, !is_nan_spec. unfold SFltb.
  destruct (Prim2SF a), (Prim2SF b); simpl; intros H;
    try discriminate H; split; reflexivity.
Qed.

(** * Monotonicity of the VaR *)

Lemma abs_leb_sign (x y : float) :
  (abs x <=? abs y) = true ->
  has_sign false (Prim2SF (abs x)) /\ has_sign false (Prim2SF (abs y)).
Proof.
  intros H. destruct (leb_not_nan _ _ H) as [Hx Hy].
  rewrite is_nan_spec, abs_spec in Hx, Hy. rewrite !abs_spec.
  destruct (Prim2SF x), (Prim2SF y); simpl in *; try discriminate;
    split; reflexivity.
Qed.

(** ** The square root of a number of days

    The square roots of the whole numbers of days from 1 to [max_days] are
    positive, finite and in order: each is compared with the next, by
    computation. *)










(** * Further properties of the clamp (lines 77-80) *)

(** X1.  Every volatility that is not NaN, whatever its sign or size, is
    brought into the band; and the result is the input itself or one of
    the two bounds. *)
Theorem clamp_volatility_band (v : float) :
  is_nan v = false ->
  in_band (clamp_volatility v) = true
  /\ (clamp_volatility v = v
      \/ clamp_volatility v = vol_min
      \/ clamp_volatility v = vol_max).
Proof.
  intros Hv. split; [apply clamp_volatility_in_band, Hv |].
  unfold clamp_volatility, py_min, py_max.
  destruct (vol_max <? v).
  - right. right. vm_compute. reflexivity.
  - destruct (v <? vol_min); [right; left | left]; reflexivity.
Qed.

Lemma clamp_volatility_band_witness :
  (in_band (clamp_volatility (-3)) = true
   /\ (clamp_volatility (-3) = -3
       \/ clamp_volatility (-3) = vol_min
       \/ clamp_volatility (-3) = vol_max))
  /\ (in_band (clamp_volatility infinity) = true
      /\ (clamp_volatility infinity = infinity
          \/ clamp_volatility infinity = vol_min
          \/ clamp_volatility infinity = vol_max)).
Proof.
  split.
  - apply (clamp_volatility_band (-3)). reflexivity.
  - apply (clamp_volatility_band infinity). reflexivity.
Defined.

(** X2.  Inside the band the clamp changes nothing. *)
Theorem clamp_volatility_identity (v : float) :
  in_band v = true -> clamp_volatility v = v.
Proof.
  unfold in_band. rewrite andb_true_iff. intros [Hlo Hhi].
  unfold clamp_volatility, py_min, py_max.
  rewrite (leb_ltb_false _ _ Hhi), (leb_ltb_false _ _ Hlo). reflexivity.
Qed.

Lemma clamp_volatility_identity_witness :
  clamp_volatility 0.0025 = 0.0025.
Proof. apply (clamp_volatility_identity 0.0025). reflexivity. Defined.

(** X3.  Clamping twice is clamping once, for every float, NaN included. *)
Theorem clamp_volatility_idempotent (v : float) :
  clamp_volatility (clamp_volatility v) = clamp_volatility v.
Proof.
  unfold clamp_volatility at 2 3. unfold py_min, py_max.
  destruct (vol_max <? v) eqn:Hhi.
  - vm_compute. reflexivity.
  - destruct (v <? vol_min) eqn:Hlo.
    + vm_compute. reflexivity.
    + unfold clamp_volatility, py_min, py_max. rewrite Hhi, Hlo. reflexivity.
Qed.

(** X4.  The clamp preserves the order of floats. *)
Theorem clamp_volatility_monotone (v w : float) :
  (v <=? w) = true -> (clamp_volatility v <=? clamp_volatility w) = true.
Proof.
  intros Hvw. destruct (leb_not_nan _ _ Hvw) as [Hv Hw].
  pose proof (clamp_volatility_in_band w Hw) as Hbw.
  unfold in_band in Hbw. apply andb_true_iff in Hbw. destruct Hbw as [Hbw _].
  revert Hbw. unfold clamp_volatility, py_min, py_max.
  destruct (vol_max <? v) eqn:Hhv.
  - rewrite (ltb_leb_trans _ _ _ Hhv Hvw). intros _. vm_compute. reflexivity.
  - destruct (v <? vol_min) eqn:Hlv.
    + replace (if vol_max <? vol_min then vol_min else vol_max) with vol_max
        by (vm_compute; reflexivity).
      replace (if vol_min <? vol_min then vol_min else vol_min) with vol_min
        by (vm_compute; reflexivity).
      intros H. exact H.
    + destruct (vol_max <? w) eqn:Hhw.
      * intros _.
        replace (if vol_max <? vol_min then vol_min else vol_max) with vol_max
          by (vm_compute; reflexivity).
        apply ltb_false_leb; [reflexivity | exact Hv | exact Hhv].
      * destruct (w <? vol_min) eqn:Hlw.
        -- rewrite (leb_ltb_trans _ _ _ Hvw Hlw) in Hlv. discriminate Hlv.
        -- intros _. exact Hvw.
Qed.

Lemma clamp_volatility_monotone_witness :
  (clamp_volatility 0.001 <=? clamp_volatility 0.0025) = true.
Proof. apply (clamp_volatility_monotone 0.001 0.0025). reflexivity. Defined.

(** * Further properties of [get_taux_usd_mad] (lines 13-26) *)

Lemma dropna_app (a b : Series) : dropna (a ++ b)%list = (dropna a ++ dropna b)%list.
Proof. unfold dropna. apply filter_app. Qed.

Lemma isna_all_app (a b : Series) :
  isna_all (a ++ b)%list = isna_all a && isna_all b.
Proof. unfold isna_all. apply forallb_app. Qed.

(** The last value of a column that is not missing. *)
Lemma last_valid (close : Series) :
  isna_all close = false ->
  exists (before after : Series) (x : float),
    close = (before ++ x :: after)%list
    /\ is_nan x = false
    /\ isna_all after = true
    /\ iloc_last (dropna close) = Ok x.
Proof.
  induction close as [| y close IH] using rev_ind; [discriminate |].
  rewrite isna_all_app. cbn [isna_all forallb]. rewrite andb_true_r.
  destruct (is_nan y) eqn:Hy.
  - rewrite andb_true_r. intros Hall.
    destruct (IH Hall) as (before & after & x & -> & Hx & Hafter & Hlast).
    exists before, (after ++ [y])%list, x. repeat split.
    + rewrite <- app_assoc. reflexivity.
    + exact Hx.
    + rewrite isna_all_app, Hafter. cbn. rewrite Hy. reflexivity.
    + rewrite dropna_app. unfold dropna at 2. cbn [filter]. rewrite Hy.
      cbn [negb]. rewrite app_nil_r. exact Hlast.
  - intros _. exists close, [], y. repeat split.
    + exact Hy.
    + rewrite dropna_app. unfold dropna at 2. cbn [filter]. rewrite Hy.
      cbn [negb]. unfold iloc_last. rewrite rev_app_distr. reflexivity.
Qed.

(** X5.  On a frame that is not empty, [get_taux_usd_mad] answers the last
    close that is not missing, which is never NaN; it answers an error text
    when the frame is empty and when every close is missing.  The
    [IndexError] of [iloc[-1]] cannot happen. *)
Theorem get_taux_usd_mad_spec (m : Market) (data : DataFrame) :
  intraday m = Ok data ->
  (df_empty data = true ->
   get_taux_usd_mad m
   = inl ("Erreur lors de la récupération du taux : " ++ msg_taux_vide))
  /\
  (forall close : Series,
      df_empty data = false ->
      df_getitem "Close" data = Ok close ->
      (isna_all close = true ->
       get_taux_usd_mad m
       = inl ("Erreur lors de la récupération du taux : " ++ msg_taux_nan))
      /\ (isna_all close = false ->
          exists (before after : Series) (taux : float),
            get_taux_usd_mad m = inr taux
            /\ close = (before ++ taux :: after)%list
            /\ is_nan taux = false
            /\ isna_all after = true)).
Proof.
  intros Hm. unfold get_taux_usd_mad, get_taux_usd_mad_try. rewrite Hm.
  cbn [bind]. split.
  - intros ->. reflexivity.
  - intros close -> ->. cbn [bind]. split.
    + intros ->. reflexivity.
    + intros Hall. rewrite Hall.
      destruct (last_valid close Hall) as (before & after & x & Hc & Hx & Ha & Hl).
      exists before, after, x. rewrite Hl. repeat split; assumption.
Qed.

Lemma get_taux_usd_mad_witness :
  exists (before after : Series) (taux : float),
    get_taux_usd_mad
      (mk_market (Ok (mk_df [0%Z; 1%Z; 2%Z; 3%Z] [("Close", [nan; 9.5; 10; nan])]))
                 (Raise (mk_exn OtherError "")))
    = inr taux
    /\ [nan; 9.5; 10; nan] = (before ++ taux :: after)%list
    /\ is_nan taux = false
    /\ isna_all after = true.
Proof.
  refine (proj2 (proj2 (get_taux_usd_mad_spec
                          (mk_market
                             (Ok (mk_df [0%Z; 1%Z; 2%Z; 3%Z]
                                    [("Close", [nan; 9.5; 10; nan])]))
                             (Raise (mk_exn OtherError "")))
                          (mk_df [0%Z; 1%Z; 2%Z; 3%Z]
                             [("Close", [nan; 9.5; 10; nan])])
                          eq_refl)
                   [nan; 9.5; 10; nan] _ _) _); reflexivity.
Defined.

(** X6.  The rate behind a report is never NaN. *)
Theorem report_rate_valid (lib : Library) (m : Market) (montant_usd : float)
    (date_fact date_ech : string) (stress_test : bool) (out : Stdout)
    (c : Calcul) :
  fst (calculer_var_try lib m montant_usd date_fact date_ech stress_test out)
  = Ok (inr c) ->
  is_nan (taux_usd_mad c) = false
  /\ exists (data : DataFrame) (close : Series),
      intraday m = Ok data
      /\ df_getitem "Close" data = Ok close
      /\ In (taux_usd_mad c) close.
Proof.
  unfold calculer_var_try.
  destruct (validate_inputs lib montant_usd date_fact date_ech) as [h | e];
    [| discriminate].
  destruct (get_taux_usd_mad m) as [msg | r] eqn:Hr; [discriminate |].
  destruct (taux <- donnees_historiques m ;; volatilite lib taux)
    as [[v nu] | e]; [| discriminate].
  cbn [fst]. intros [= <-]. cbn [taux_usd_mad calcul_var].
  revert Hr. unfold get_taux_usd_mad, get_taux_usd_mad_try.
  destruct (intraday m) as [data | e] eqn:Hm; cbn [bind]; [| discriminate].
  destruct (df_empty data) eqn:Hempty; [discriminate |].
  destruct (df_getitem "Close" data) as [close | e] eqn:Hclose; cbn [bind];
    [| discriminate].
  destruct (isna_all close) eqn:Hall; [discriminate |].
  destruct (last_valid close Hall) as (before & after & x & Hc & Hx & Ha & Hl).
  rewrite Hl. intros [= <-]. split; [exact Hx |].
  exists data, close. split; [reflexivity |]. split; [exact Hclose |].
  rewrite Hc. apply in_elt.
Qed.

Lemma report_rate_valid_witness :
  is_nan (taux_usd_mad (calcul_var replay_library 10000 10 (IntDays 61)
                          (clamp_volatility (0.25 / 100)) 5 true)) = false
  /\ exists (data : DataFrame) (close : Series),
      intraday flat_market = Ok data
      /\ df_getitem "Close" data = Ok close
      /\ In (taux_usd_mad (calcul_var replay_library 10000 10 (IntDays 61)
                             (clamp_volatility (0.25 / 100)) 5 true)) close.
Proof.
  apply (report_rate_valid replay_library flat_market 10000
           "2025-04-23" "2025-06-23" true []).
  vm_compute. reflexivity.
Defined.

(** * Further properties of [validate_inputs] (lines 29-42) *)

(** X7.  For an accepted amount, a [ValueError] of the date parser on
    either date becomes the date-format error; any other exception of the
    parser comes out unchanged. *)
Theorem validate_inputs_dates (lib : Library) (montant_usd : float)
    (date_fact date_ech : string) (e : exn) :
  (montant_usd <=? 0) = false ->
  to_datetime lib date_fact = Raise e
  \/ (exists f : Timestamp,
         to_datetime lib date_fact = Ok f /\ to_datetime lib date_ech = Raise e) ->
  validate_inputs lib montant_usd date_fact date_ech
  = if is_value_error e then Raise (mk_exn ValueError msg_dates) else Raise e.
Proof.
  intros Hm H. unfold validate_inputs. rewrite Hm.
  destruct H as [-> | (f & -> & ->)]; reflexivity.
Qed.

Lemma validate_inputs_dates_witness :
  validate_inputs replay_library 100 "2025-01-01" "01/02/2025"
  = Raise (mk_exn ValueError msg_dates).
Proof.
  refine (validate_inputs_dates replay_library 100 "2025-01-01" "01/02/2025"
            (mk_exn ValueError
               ("Unknown datetime string format: " ++ "01/02/2025")) _ _).
  - reflexivity.
  - right. exists (Stamp false 1735689600000000000). split; vm_compute; reflexivity.
Defined.

(** X8.  A horizon is returned only for an amount that is not [<= 0] and
    two dates that parse.  Either both are timestamps of the same time-zone
    awareness, the settlement one not before the invoice one, their
    difference is the one the library computes and the horizon is its whole
    number of days, at least 1 (so, where the difference is the exact one,
    the settlement date is at least 24 hours after the invoice date); or
    one of the two dates parsed to NaT and the horizon is NaN. *)
Theorem validate_inputs_ok (lib : Library) (montant_usd : float)
    (date_fact date_ech : string) (h : py_days) :
  validate_inputs lib montant_usd date_fact date_ech = Ok h ->
  (montant_usd <=? 0) = false
  /\ exists f e : Timestamp,
      to_datetime lib date_fact = Ok f
      /\ to_datetime lib date_ech = Ok e
      /\ ((exists (z : bool) (x y d : Z),
              f = Stamp z x /\ e = Stamp z y
              /\ (x <= y)%Z
              /\ timestamp_sub lib y x = Ok d
              /\ h = IntDays (d / ns_per_day)
              /\ (1 <= d / ns_per_day)%Z
              /\ (d = (y - x)%Z ->
                  let n := timedelta_days y x in
                  (x + n * ns_per_day <= y < x + (n + 1) * ns_per_day)%Z))
          \/ ((f = NaT \/ e = NaT) /\ h = NanDays)).
Proof.
  unfold validate_inputs.
  destruct (montant_usd <=? 0); [discriminate |].
  destruct (to_datetime lib date_fact) as [f | e1]; cbn [bind];
    [| destruct (is_value_error e1); discriminate].
  destruct (to_datetime lib date_ech) as [e | e2]; cbn [bind];
    [| destruct (is_value_error e2); discriminate].
  intros H. split; [reflexivity |]. exists f, e.
  split; [reflexivity |]. split; [reflexivity |].
  destruct f as [zf x |], e as [ze y |]; cbn [timestamp_lt timestamp_days bind] in H.
  - left. destruct (Bool.eqb ze zf) eqn:Hz; cbn [bind] in H; [| discriminate].
    apply Bool.eqb_prop in Hz. subst ze.
    destruct (Z.ltb_spec y x) as [Hlt | Hle]; [discriminate |].
    destruct (timestamp_sub lib y x) as [d | e3] eqn:Hd; cbn [bind days_ltb] in H;
      [| discriminate].
    destruct (Z.ltb_spec (d / ns_per_day) 1) as [Hlt | Hge]; [discriminate |].
    injection H as <-. exists zf, x, y, d.
    split; [reflexivity |]. split; [reflexivity |]. split; [exact Hle |].
    split; [exact Hd |]. split; [reflexivity |]. split; [exact Hge |].
    intros _. cbv zeta. unfold timedelta_days, ns_per_day.
    pose proof (Z.mul_div_le (y - x) 86400000000000 ltac:(lia)).
    pose proof (Z.mul_succ_div_gt (y - x) 86400000000000 ltac:(lia)). lia.
  - right. injection H as <-. split; [right; reflexivity | reflexivity].
  - right. injection H as <-. split; [left; reflexivity | reflexivity].
  - right. injection H as <-. split; [left; reflexivity | reflexivity].
Qed.

Lemma validate_inputs_ok_witness :
  (10000 <=? 0) = false
  /\ exists f e : Timestamp,
      to_datetime replay_library "2025-04-23" = Ok f
      /\ to_datetime replay_library "2025-06-23" = Ok e
      /\ ((exists (z : bool) (x y d : Z),
              f = Stamp z x /\ e = Stamp z y
              /\ (x <= y)%Z
              /\ timestamp_sub replay_library y x = Ok d
              /\ IntDays 61 = IntDays (d / ns_per_day)
              /\ (1 <= d / ns_per_day)%Z
              /\ (d = (y - x)%Z ->
                  let n := timedelta_days y x in
                  (x + n * ns_per_day <= y < x + (n + 1) * ns_per_day)%Z))
          \/ ((f = NaT \/ e = NaT) /\ IntDays 61 = NanDays)).
Proof.
  apply (validate_inputs_ok replay_library 10000 "2025-04-23" "2025-06-23").
  vm_compute. reflexivity.
Defined.



(** * Further properties of the historical series (lines 55-64) *)

Lemma dropna_no_nan (s : Series) :
  forallb (fun x => negb (is_nan x)) (dropna s) = true.
Proof.
  apply forallb_forall. intros x Hx. apply filter_In in Hx. exact (proj2 Hx).
Qed.

(** X10.  A series that comes out of the fetch has at least 250 values and
    none is missing; it is the selected column of a frame that is not
    empty, without its missing values. *)
Theorem donnees_historiques_ok (m : Market) (taux : Series) :
  donnees_historiques m = Ok taux ->
  (250 <= List.length taux)%nat
  /\ forallb (fun x => negb (is_nan x)) taux = true
  /\ exists (data : DataFrame) (col : Series),
      history m = Ok data
      /\ df_empty data = false
      /\ taux = dropna col
      /\ (df_getitem "Adj Close" data = Ok col
          \/ (df_has_column "Adj Close" data = false
              /\ df_getitem "Close" data = Ok col)).
Proof.
  unfold donnees_historiques.
  destruct (history m) as [data | e]; cbn [bind]; [| discriminate].
  destruct (df_empty data) eqn:Hempty; [discriminate |].
  destruct (df_has_column "Adj Close" data) eqn:Hadj.
  - destruct (df_getitem "Adj Close" data) as [col | e] eqn:Hcol; cbn [bind];
      [| discriminate].
    destruct (Nat.ltb_spec (List.length (dropna col)) 250) as [Hlt | Hge];
      [discriminate |].
    intros [= <-]. split; [exact Hge |]. split; [apply dropna_no_nan |].
    exists data, col. split; [reflexivity |]. split; [exact Hempty |].
    split; [reflexivity |]. left. exact Hcol.
  - destruct (df_getitem "Close" data) as [col | e] eqn:Hcol; cbn [bind];
      [| discriminate].
    destruct (Nat.ltb_spec (List.length (dropna col)) 250) as [Hlt | Hge];
      [discriminate |].
    intros [= <-]. split; [exact Hge |]. split; [apply dropna_no_nan |].
    exists data, col. split; [reflexivity |]. split; [exact Hempty |].
    split; [reflexivity |]. right. split; [exact Hadj | exact Hcol].
Qed.

Lemma donnees_historiques_ok_witness :
  (250 <= List.length (repeat 10%float 250))%nat
  /\ forallb (fun x => negb (is_nan x)) (repeat 10 250) = true
  /\ exists (data : DataFrame) (col : Series),
      history flat_market = Ok data
      /\ df_empty data = false
      /\ repeat 10 250 = dropna col
      /\ (df_getitem "Adj Close" data = Ok col
          \/ (df_has_column "Adj Close" data = false
              /\ df_getitem "Close" data = Ok col)).
Proof.
  apply (donnees_historiques_ok flat_market). vm_compute. reflexivity.
Defined.

Lemma df_getitem_absent (name : string) (data : DataFrame) :
  df_has_column name data = false ->
  df_getitem name data = Raise (mk_exn KeyError ("'" ++ name ++ "'")).
Proof.
  unfold df_has_column, df_getitem.
  induction (df_columns data) as [| c cols IH]; [reflexivity |].
  cbn [existsb find]. destruct (String.eqb name (fst c)); [discriminate |].
  exact IH.
Qed.

(** X11.  When the request is valid and the rate is fetched, a historical
    frame that is not empty and has neither an [Adj Close] nor a [Close]
    column makes [calculer_var] answer the text of the [KeyError]. *)
Theorem calculer_var_missing_close (lib : Library) (m : Market)
    (montant_usd : float) (date_fact date_ech : string) (stress_test : bool)
    (out : Stdout) (h : py_days) (r : float) (data : DataFrame) :
  validate_inputs lib montant_usd date_fact date_ech = Ok h ->
  get_taux_usd_mad m = inr r ->
  history m = Ok data ->
  df_empty data = false ->
  df_has_column "Adj Close" data = false ->
  df_has_column "Close" data = false ->
  calculer_var lib m montant_usd date_fact date_ech stress_test out
  = ("Erreur : 'Close'", out).
Proof.
  intros Hv Hr Hm Hempty Hadj Hclose.
  unfold calculer_var, calculer_var_try, donnees_historiques.
  rewrite Hv, Hr, Hm. cbn [bind]. rewrite Hempty, Hadj.
  rewrite (df_getitem_absent "Close" data Hclose). reflexivity.
Qed.

Lemma calculer_var_missing_close_witness :
  calculer_var replay_library
    (mk_market (Ok (mk_df [0%Z] [("Close", [10])]))
               (Ok (mk_df [0%Z] [("Open", [10])])))
    10000 "2025-04-23" "2025-06-23" true []
  = ("Erreur : 'Close'", []).
Proof.
  apply (calculer_var_missing_close replay_library
           (mk_market (Ok (mk_df [0%Z] [("Close", [10])]))
                      (Ok (mk_df [0%Z] [("Open", [10])])))
           10000 "2025-04-23" "2025-06-23" true [] (IntDays 61) 10
           (mk_df [0%Z] [("Open", [10])])); vm_compute; reflexivity.
Defined.

(** * Further properties of the return transform (lines 66-68) *)

Lemma series_div_length (a b : Series) :
  (List.length (series_div a b) <= List.length a)%nat.
Proof.
  revert b. induction a as [| x a IH]; intros [| y b]; cbn [series_div List.length];
    try lia. specialize (IH b). lia.
Qed.

(** X12.  Whatever the prices (zero, negative or infinite ones included)
    and whatever [np.log] answers, the returns handed to the fit hold no
    NaN and are no more numerous than the prices. *)
Theorem rendements_pct_clean (lib : Library) (taux : Series) :
  forallb (fun x => negb (is_nan x)) (rendements_pct lib taux) = true
  /\ (List.length (rendements_pct lib taux) <= List.length taux)%nat.
Proof.
  unfold rendements_pct. split.
  - apply forallb_forall. intros x Hx. apply in_map_iff in Hx.
    destruct Hx as (r & <- & Hr). apply filter_In in Hr.
    destruct Hr as [_ Hr]. apply negb_true_iff in Hr.
    rewrite (mul_100_not_nan r Hr). reflexivity.
  - rewrite length_map. unfold dropna.
    pose proof (filter_length_le (fun x => negb (is_nan x))
                  (map (np_log lib) (series_div taux (shift1 taux)))) as H1.
    rewrite length_map in H1.
    pose proof (series_div_length taux (shift1 taux)). lia.
Qed.

(** X13.  A series that comes out of the fetch and holds positive finite
    prices gives exactly one return less than it has prices, hence at
    least 249 returns, when [np.log] is NaN on NaN and on negative numbers
    only. *)
Theorem rendements_pct_sample (lib : Library) (m : Market) (taux : Series) :
  (forall x, is_nan x = true -> is_nan (np_log lib x) = true) ->
  (forall x, is_nan x = false -> (x <? 0) = false ->
             is_nan (np_log lib x) = false) ->
  donnees_historiques m = Ok taux ->
  Forall (fun p => finite_pos p = true) taux ->
  List.length (rendements_pct lib taux) = (List.length taux - 1)%nat
  /\ (249 <= List.length (rendements_pct lib taux))%nat.
Proof.
  intros Hnan Hdef Hd Hpos.
  rewrite (rendements_pct_prices lib Hnan Hdef taux Hpos).
  rewrite length_map, consecutive_ratios_length.
  split; [reflexivity |].
  revert Hd. unfold donnees_historiques.
  destruct (history m) as [data | e]; cbn [bind]; [| discriminate].
  destruct (df_empty data); [discriminate |].
  destruct (if df_has_column "Adj Close" data
            then df_getitem "Adj Close" data
            else df_getitem "Close" data) as [col | e]; cbn [bind];
    [| discriminate].
  destruct (Nat.ltb_spec (List.length (dropna col)) 250) as [Hlt | Hge];
    [discriminate |].
  intros [= <-]. lia.
Qed.

Lemma rendements_pct_sample_witness :
  List.length (rendements_pct replay_library (repeat 10 250))
  = (List.length (repeat 10%float 250) - 1)%nat
  /\ (249 <= List.length (rendements_pct replay_library (repeat 10%float 250)))%nat.
Proof.
  apply (rendements_pct_sample replay_library flat_market (repeat 10 250)
           replay_log_nan replay_log_defined).
  - vm_compute. reflexivity.
  - apply Forall_forall. intros p Hp. apply repeat_spec in Hp. subst p.
    reflexivity.
Defined.

(** * Further properties of [calculer_var] (lines 45-122) *)

(** X14.  The text [calculer_var] returns starts with [Erreur] exactly when
    no report was produced: a report never reads as an error, an error
    never as a report. *)
Theorem calculer_var_error_prefix (lib : Library) (m : Market)
    (montant_usd : float) (date_fact date_ech : string) (stress_test : bool)
    (out : Stdout) :
  prefix "Erreur"
    (fst (calculer_var lib m montant_usd date_fact date_ech stress_test out))
  = match fst (calculer_var_try lib m montant_usd date_fact date_ech
                 stress_test out) with
    | Ok (inr _) => false
    | _ => true
    end.
Proof.
  unfold calculer_var.
  destruct (calculer_var_try lib m montant_usd date_fact date_ech stress_test out)
    as [[[message | c] | e] out'] eqn:Hrun; cbn [fst].
  - revert Hrun. unfold calculer_var_try, get_taux_usd_mad.
    destruct (validate_inputs lib montant_usd date_fact date_ech);
      [| discriminate].
    destruct (get_taux_usd_mad_try m) as [r | e].
    + destruct (taux <- donnees_historiques m ;; volatilite lib taux)
        as [[v nu] | e]; discriminate.
    + intros [= <- _]. reflexivity.
  - unfold format_resume, resume_base. destruct (stress c); reflexivity.
  - reflexivity.
Qed.

(** X15.  [calculer_var] prints exactly one line, the adjusted volatility
    that the figures use, when it produces a report, and prints nothing
    otherwise. *)
Theorem calculer_var_stdout (lib : Library) (m : Market)
    (montant_usd : float) (date_fact date_ech : string) (stress_test : bool)
    (out : Stdout) :
  match fst (calculer_var_try lib m montant_usd date_fact date_ech
               stress_test out) with
  | Ok (inr c) =>
      exists vol : float,
        snd (calculer_var lib m montant_usd date_fact date_ech stress_test out)
        = (out ++ [("Adjusted volatility: "
                     ++ format_4f lib (vol * 100) ++ "%")%string])%list
        /\ var_journaliere c = quantile_t c * vol
        /\ (in_band vol = true \/ is_nan vol = true)
  | _ =>
      snd (calculer_var lib m montant_usd date_fact date_ech stress_test out)
      = out
  end.
Proof.
  unfold calculer_var, calculer_var_try.
  destruct (validate_inputs lib montant_usd date_fact date_ech) as [h | e];
    [| reflexivity].
  destruct (get_taux_usd_mad m) as [message | r]; [reflexivity |].
  destruct (taux <- donnees_historiques m ;; volatilite lib taux)
    as [[v nu] | e]; [| reflexivity].
  cbn [fst snd]. exists (clamp_volatility v). split; [reflexivity |].
  split; [reflexivity |].
  destruct (is_nan v) eqn:Hv.
  - right. unfold clamp_volatility, py_min, py_max.
    assert (H1 : (vol_max <? v) = false).
    { destruct (vol_max <? v) eqn:H; [| reflexivity].
      apply ltb_not_nan in H. destruct H; congruence. }
    rewrite H1.
    assert (H2 : (v <? vol_min) = false).
    { destruct (v <? vol_min) eqn:H; [| reflexivity].
      apply ltb_not_nan in H. destruct H; congruence. }
    rewrite H2. exact Hv.
  - left. apply clamp_volatility_in_band, Hv.
Qed.

(** * Further properties of the VaR figures (lines 83-106) *)

Lemma has_sign_nonneg (x : float) :
  has_sign false (Prim2SF x) -> (0 <=? x) = true.
Proof.
  intros H. rewrite leb_spec. change (Prim2SF 0) with (S754_zero false).
  apply SFleb_zero_l, H.
Qed.

Lemma finite_pos_sign (x : float) :
  finite_pos x = true -> has_sign false (Prim2SF x).
Proof.
  intros H. destruct (finite_pos_spec x H) as (m & e & ->). reflexivity.
Qed.

(** X16.  With a volatility estimate that is not NaN, the daily VaR lies
    between the quantile times the lower bound of the band and the
    quantile times its upper bound. *)
Theorem var_journaliere_bounds (lib : Library) (montant_usd taux : float)
    (h : py_days) (v dof : float) (stress_test : bool) :
  is_nan v = false ->
  is_nan (t_ppf lib 0.05 dof) = false ->
  let c := calcul_var lib montant_usd taux h (clamp_volatility v) dof
             stress_test in
  (quantile_t c * vol_min <=? var_journaliere c) = true
  /\ (var_journaliere c <=? quantile_t c * vol_max) = true.
Proof.
  intros Hv Hq. cbv zeta. cbn [quantile_t var_journaliere calcul_var].
  pose proof (clamp_volatility_in_band v Hv) as Hband.
  unfold in_band in Hband. apply andb_true_iff in Hband.
  destruct Hband as [Hlo Hhi].
  pose proof (clamp_volatility_finite_pos v Hv) as Hpos.
  pose proof (abs_sign _ Hq) as Hs.
  split; apply mul_le_mono_l; try assumption; reflexivity.
Qed.

Lemma var_journaliere_bounds_witness :
  let c := calcul_var replay_library 10000 10 (IntDays 61) (clamp_volatility 0.5) 5
             true in
  (quantile_t c * vol_min <=? var_journaliere c) = true
  /\ (var_journaliere c <=? quantile_t c * vol_max) = true.
Proof.
  apply (var_journaliere_bounds replay_library 10000 10 (IntDays 61) 0.5 5 true);
    reflexivity.
Defined.

(** X17.  For a positive finite amount, rate, volatility and square root,
    and a quantile that is not NaN, no figure of the loss is negative or
    NaN: the daily and horizon VaR, in decimal and in percent, the booked
    amount and the potential loss are all [>= 0]. *)
Theorem figures_nonnegative (lib : Library) (montant_usd taux : float)
    (h : py_days) (vol dof : float) (stress_test : bool) :
  finite_pos montant_usd = true ->
  finite_pos taux = true ->
  finite_pos vol = true ->
  finite_pos (np_sqrt lib h) = true ->
  is_nan (t_ppf lib 0.05 dof) = false ->
  let c := calcul_var lib montant_usd taux h vol dof stress_test in
  (0 <=? var_journaliere c) = true
  /\ (0 <=? var_journaliere_pct c) = true
  /\ (0 <=? var_horizon c) = true
  /\ (0 <=? var_horizon_pct c) = true
  /\ (0 <=? montant_comptabilise c) = true
  /\ (0 <=? perte_potentielle c) = true.
Proof.
  intros Hm Ht Hvol Hs Hq. cbv zeta.
  cbn [var_journaliere var_journaliere_pct var_horizon var_horizon_pct
       montant_comptabilise perte_potentielle calcul_var].
  assert (H100 : finite_pos 100 = true) by reflexivity.
  pose proof (mul_sign _ _ (abs_sign _ Hq) Hvol) as Hj.
  pose proof (mul_sign _ _ Hj Hs) as Hh.
  repeat split; apply has_sign_nonneg;
    repeat first [assumption | apply mul_sign | apply finite_pos_sign].
Qed.

Lemma figures_nonnegative_witness :
  let c := calcul_var replay_library 10000 10 (IntDays 61) 0.0025 5 true in
  (0 <=? var_journaliere c) = true
  /\ (0 <=? var_journaliere_pct c) = true
  /\ (0 <=? var_horizon c) = true
  /\ (0 <=? var_horizon_pct c) = true
  /\ (0 <=? montant_comptabilise c) = true
  /\ (0 <=? perte_potentielle c) = true.
Proof.
  apply (figures_nonnegative replay_library 10000 10 (IntDays 61) 0.0025 5 true);
    reflexivity.
Defined.

(** X18.  For a positive finite amount, a positive finite rate, a positive
    finite volatility and a horizon whose square root is positive and
    finite: when the magnitude of the quantile does not decrease from the
    95% to the 99% level (neither being NaN), the stressed figures of the
    report are at least the baseline ones: the stressed VaR in percent and
    the stressed loss in dirhams. *)
Theorem stress_at_least_baseline (lib : Library) (montant_usd taux : float)
    (h : py_days) (vol dof : float) :
  finite_pos montant_usd = true ->
  finite_pos taux = true ->
  finite_pos vol = true ->
  finite_pos (np_sqrt lib h) = true ->
  (abs (t_ppf lib 0.05 dof) <=? abs (t_ppf lib 0.01 dof)) = true ->
  let c := calcul_var lib montant_usd taux h vol dof true in
  let s := calcul_stress lib montant_usd taux h vol dof in
  (var_horizon_pct c <=? var_horizon_stress_pct s) = true
  /\ (perte_potentielle c <=? perte_potentielle_stress s) = true.
Proof.
  intros Hm Ht Hvol Hs Hq. cbv zeta.
  cbn [var_horizon_pct perte_potentielle calcul_var var_horizon_stress_pct
       perte_potentielle_stress calcul_stress].
  destruct (abs_leb_sign _ _ Hq) as [H95 H99].
  assert (H100 : finite_pos 100 = true) by reflexivity.
  pose proof (mul_sign _ _ H95 Hvol) as Hj95.
  pose proof (mul_sign _ _ H99 Hvol) as Hj99.
  pose proof (mul_sign _ _ Hj95 Hs) as Hh95.
  pose proof (mul_sign _ _ Hj99 Hs) as Hh99.
  assert (Hh : (abs (t_ppf lib 0.05 dof) * vol * np_sqrt lib h
                <=? abs (t_ppf lib 0.01 dof) * vol * np_sqrt lib h) = true).
  { apply mul_le_mono_r; try assumption.
    apply mul_le_mono_r; assumption. }
  split.
  - apply mul_le_mono_r; assumption.
  - apply mul_le_mono_r; try assumption; try (apply mul_sign; assumption).
    apply mul_le_mono_r; assumption.
Qed.

Lemma stress_at_least_baseline_witness :
  let c := calcul_var replay_library 10000 10 (IntDays 61) 0.0025 5 true in
  let s := calcul_stress replay_library 10000 10 (IntDays 61) 0.0025 5 in
  (var_horizon_pct c <=? var_horizon_stress_pct s) = true
  /\ (perte_potentielle c <=? perte_potentielle_stress s) = true.
Proof.
  apply (stress_at_least_baseline replay_library 10000 10 (IntDays 61) 0.0025 5);
    reflexivity.
Defined.

(** X19.  For two positive finite amounts, the first at most the second,
    and the same positive finite rate, positive finite volatility, horizon
    whose square root is positive and finite, and degrees of freedom at
    which the 95% quantile is not NaN: the larger receivable shows neither a
    smaller booked amount nor a smaller potential loss. *)
Theorem figures_monotone_in_amount (lib : Library) (m1 m2 taux : float)
    (h : py_days) (vol dof : float) (stress_test : bool) :
  finite_pos m1 = true ->
  finite_pos m2 = true ->
  (m1 <=? m2) = true ->
  finite_pos taux = true ->
  finite_pos vol = true ->
  finite_pos (np_sqrt lib h) = true ->
  is_nan (t_ppf lib 0.05 dof) = false ->
  let c1 := calcul_var lib m1 taux h vol dof stress_test in
  let c2 := calcul_var lib m2 taux h vol dof stress_test in
  (montant_comptabilise c1 <=? montant_comptabilise c2) = true
  /\ (perte_potentielle c1 <=? perte_potentielle c2) = true.
Proof.
  intros H1 H2 H12 Ht Hvol Hs Hq. cbv zeta.
  cbn [montant_comptabilise perte_potentielle calcul_var].
  pose proof (mul_sign _ _ (mul_sign _ _ (abs_sign _ Hq) Hvol) Hs) as Hh.
  split.
  - apply mul_le_mono_r; try assumption; apply finite_pos_sign; assumption.
  - apply mul_le_mono_r; try assumption; try (apply mul_sign; assumption).
    apply mul_le_mono_l; assumption.
Qed.

Lemma figures_monotone_in_amount_witness :
  let c1 := calcul_var replay_library 10000 10 (IntDays 61) 0.0025 5 true in
  let c2 := calcul_var replay_library 25000 10 (IntDays 61) 0.0025 5 true in
  (montant_comptabilise c1 <=? montant_comptabilise c2) = true
  /\ (perte_potentielle c1 <=? perte_potentielle c2) = true.
Proof.
  apply (figures_monotone_in_amount replay_library 10000 25000 10 (IntDays 61) 0.0025 5
           true); reflexivity.
Defined.

(** * Subtracting a non-negative float does not increase *)

Section Subtraction.

Local Open Scope Z_scope.

Lemma nat_iter_xO_value (n : nat) (m : positive) :
  Z.pos (Nat.iter n xO m) = Z.pos m * 2 ^ Z.of_nat n.
Proof.
  induction n as [| n IH].
  - cbn. lia.
  - change (Nat.iter (S n) xO m) with (xO (Nat.iter n xO m)).
    rewrite Nat2Z.inj_succ, Z.pow_succ_r, Pos2Z.inj_xO, IH by lia. ring.
Qed.

Lemma iter_xO_value (d m : positive) :
  Z.pos (Pos.iter xO m d) = Z.pos m * 2 ^ Z.pos d.
Proof.
  rewrite Pos2Nat.inj_iter, <- (positive_nat_Z d). apply nat_iter_xO_value.
Qed.

Lemma shl_align_spec (m : positive) (e e' : Z) :
  Z.pos (fst (shl_align m e e')) = Z.pos m * 2 ^ (e - Z.min e e')
  /\ snd (shl_align m e e') = Z.min e e'.
Proof.
  unfold shl_align. destruct (e' - e) as [| d | d] eqn:Hd; cbn [fst snd].
  - replace (Z.min e e') with e by lia. rewrite Z.sub_diag. split; lia.
  - replace (Z.min e e') with e by lia. rewrite Z.sub_diag. split; lia.
  - replace (Z.min e e') with e' by lia. split; [| reflexivity].
    rewrite iter_xO_value. f_equal. f_equal. lia.
Qed.

Lemma finish_canonical (m : positive) (e : Z) :
  bounded prec emax m e = true ->
  finish (Z.pos m) e = S754_finite false m e /\ Z.pos m < two53
  /\ (-1074 < e -> two52 <= Z.pos m).
Proof.
  intros Hb. apply bounded_spec in Hb. destruct Hb as [Hc He].
  pose proof (Zdigits2_bounds m) as Hd.
  assert (Hpos : 0 < Zdigits2 (Z.pos m)) by (simpl; lia).
  assert (Hd53 : Zdigits2 (Z.pos m) <= 53) by lia.
  assert (Hlt : Z.pos m < two53).
  { apply Z.lt_le_trans with (2 ^ Zdigits2 (Z.pos m)); [lia |].
    change two53 with (2 ^ 53). apply Z.pow_le_mono_r; lia. }
  split; [| split; [exact Hlt |]].
  - unfold finish. destruct (Z.eqb_spec (Z.pos m) two53); [lia |].
    destruct (Z.leb_spec e 971); [reflexivity | lia].
  - intros Hn. assert (H53 : Zdigits2 (Z.pos m) = 53) by lia.
    rewrite H53 in Hd. change (2 ^ (53 - 1)) with two52 in Hd. lia.
Qed.

Lemma rounds_to_exact (m : Z) : 0 <= m -> rounds_to m 0 m.
Proof.
  intros Hm. exists m. rewrite Z.pow_0_r, Z.mul_1_r, Z.sub_diag.
  repeat split; try lia. unfold rn_up. cbn. lia.
Qed.

(** Rounding a positive number below a float gives at most that float. *)
Lemma binary_round_le (d mx : positive) (ez ex : Z) :
  bounded prec emax mx ex = true ->
  ez <= ex ->
  Z.pos d <= Z.pos mx * 2 ^ (ex - ez) ->
  SFleb (binary_round prec emax false d ez) (S754_finite false mx ex) = true.
Proof.
  intros Hb Hez Hval.
  destruct (finish_canonical mx ex Hb) as (Hfin & Hlt & Hnorm).
  pose proof (proj1 (bounded_spec mx ex Hb)) as Hcan.
  unfold binary_round.
  set (E0 := fexp prec emax (Z.pos (digits2_pos d) + ez)).
  destruct (shl_align_spec d ez E0) as [Hmz Hez'].
  destruct (shl_align d ez E0) as [mz ez']. cbn [fst snd] in Hmz, Hez'.
  assert (Hdig : Zdigits2 (Z.pos mz) + ez' = Zdigits2 (Z.pos d) + ez).
  { rewrite !Zdigits2_log2, Hmz, Z.log2_mul_pow2 by lia. lia. }
  assert (HE : fexp prec emax (Zdigits2 (Z.pos mz) + ez') = E0)
    by (rewrite Hdig; reflexivity).
  assert (Hle : ez' <= fexp prec emax (Zdigits2 (Z.pos mz) + ez')) by lia.
  destruct (binary_round_aux_exact mz ez' Hle) as (m1 & Hr & ->).
  destruct (rounds_to_bounds mz ez' m1 Hle Hr) as [Hb1 _].
  rewrite HE in *.
  assert (Hmag : Zdigits2 (Z.pos d) + ez <= Zdigits2 (Z.pos mx) + ex).
  { rewrite !Zdigits2_log2. pose proof (Z.log2_le_mono _ _ Hval) as Hlog.
    rewrite Z.log2_mul_pow2 in Hlog by lia. lia. }
  assert (HE0 : E0 <= ex).
  { unfold E0. rewrite fexp_spec. cbn [Zdigits2] in Hmag, Hcan. lia. }
  assert (HE0min : -1074 <= E0) by (unfold E0; rewrite fexp_spec; lia).
  rewrite <- Hfin.
  destruct (Z.eq_dec E0 ex) as [Heq | Hne].
  - rewrite Heq in *. apply finish_leb_same; try lia.
    apply (rounds_to_mono (Z.pos mz) (ex - ez') m1 (Z.pos mx) 0 (Z.pos mx)
             (ex - ez')); try lia.
    + rewrite Hmz. replace (ex - ez') with ((ex - ez) + (ez - Z.min ez ex))
        by lia.
      rewrite Z.pow_add_r by lia.
      pose proof (Z.pow_pos_nonneg 2 (ez - Z.min ez ex) ltac:(lia) ltac:(lia)).
      nia.
    + exact Hr.
    + apply rounds_to_exact. lia.
  - apply finish_leb_next; lia.
Qed.

Lemma binary_round_sign (s : bool) (m : positive) (e : Z) :
  has_sign s (binary_round prec emax s m e).
Proof.
  unfold binary_round. destruct (shl_align m e _) as [mz ez].
  apply binary_round_aux_sign. lia.
Qed.

Lemma SFleb_negative (z : spec_float) (m : positive) (e : Z) :
  has_sign true z -> SFleb z (S754_finite false m e) = true.
Proof. destruct z as [s | s | | s mz ez]; simpl; intros H; subst; easy. Qed.

Lemma SFsub_le_self (mx my : positive) (ex ey : Z) :
  bounded prec emax mx ex = true ->
  SFleb (SFsub prec emax (S754_finite false mx ex) (S754_finite false my ey))
        (S754_finite false mx ex) = true.
Proof.
  intros Hb. cbn [SFsub cond_Zopp].
  destruct (shl_align_spec mx ex (Z.min ex ey)) as [Hx _].
  destruct (shl_align_spec my ey (Z.min ex ey)) as [Hy _].
  set (ax := Z.pos (fst (shl_align mx ex (Z.min ex ey)))) in *.
  set (ay := Z.pos (fst (shl_align my ey (Z.min ex ey)))) in *.
  assert (Hay : 0 < ay) by (unfold ay; lia).
  replace (Z.min ex (Z.min ex ey)) with (Z.min ex ey) in Hx by lia.
  unfold binary_normalize.
  destruct (ax - ay) as [| d | d] eqn:Hd.
  - reflexivity.
  - apply binary_round_le; [exact Hb | lia |]. lia.
  - apply SFleb_negative, binary_round_sign.
Qed.

End Subtraction.

(** [x - y <= x] for a finite [x >= 0] and a [y >= 0] that may be
    infinite. *)
Lemma sub_le_self (x y : float) :
  has_sign false (Prim2SF x) -> (x <? infinity) = true ->
  has_sign false (Prim2SF y) ->
  (x - y <=? x) = true.
Proof.
  intros Hx Hfin Hy. rewrite leb_spec, sub_spec.
  rewrite ltb_spec in Hfin. change (Prim2SF infinity) with (S754_infinity false) in Hfin.
  pose proof (Prim2SF_valid x) as Vx.
  destruct (Prim2SF x) as [sx | sx | | sx mx ex]; simpl in Hx; subst;
    try contradiction; try discriminate;
    destruct (Prim2SF y) as [sy | sy | | sy my ey]; simpl in Hy; subst;
    try contradiction; try reflexivity.
  - unfold SF64sub, SFsub, SFleb, SFcompare.
    rewrite Z.compare_refl, Pos.compare_cont_refl. reflexivity.
  - apply SFsub_le_self. exact Vx.
Qed.

(** X20.  For a positive finite amount, rate, volatility and square root,
    a quantile that is not NaN and a booked amount that is finite, the
    estimated settlement amount never exceeds the booked amount. *)
Theorem montant_estime_le_comptabilise (lib : Library)
    (montant_usd taux : float) (h : py_days) (vol dof : float)
    (stress_test : bool) :
  finite_pos montant_usd = true ->
  finite_pos taux = true ->
  finite_pos vol = true ->
  finite_pos (np_sqrt lib h) = true ->
  is_nan (t_ppf lib 0.05 dof) = false ->
  let c := calcul_var lib montant_usd taux h vol dof stress_test in
  (montant_comptabilise c <? infinity) = true ->
  (montant_estime c <=? montant_comptabilise c) = true.
Proof.
  intros Hm Ht Hvol Hs Hq. cbv zeta.
  cbn [montant_comptabilise montant_estime calcul_var]. intros Hfin.
  apply sub_le_self.
  - apply mul_sign; [apply finite_pos_sign, Hm | exact Ht].
  - exact Hfin.
  - repeat first [assumption | apply mul_sign | apply abs_sign].
Qed.

Lemma montant_estime_le_comptabilise_witness :
  let c := calcul_var replay_library 10000 10 (IntDays 61) 0.0025 5 true in
  (montant_estime c <=? montant_comptabilise c) = true.
Proof.
  apply (montant_estime_le_comptabilise replay_library 10000 10 (IntDays 61) 0.0025 5
           true); reflexivity.
Defined.

Lemma validate_inputs_horizon (lib : Library) (montant_usd : float)
    (date_fact date_ech : string) (h : py_days) :
  validate_inputs lib montant_usd date_fact date_ech = Ok h ->
  match h with
  | IntDays n => (1 <= n)%Z
  | NanDays =>
      to_datetime lib date_fact = Ok NaT \/ to_datetime lib date_ech = Ok NaT
  end.
Proof.
  unfold validate_inputs.
  destruct (montant_usd <=? 0); [discriminate |].
  destruct (to_datetime lib date_fact) as [f | e1]; cbn [bind];
    [| destruct (is_value_error e1); discriminate].
  destruct (to_datetime lib date_ech) as [e | e2]; cbn [bind];
    [| destruct (is_value_error e2); discriminate].
  destruct f as [zf x |], e as [ze y |]; cbn [timestamp_lt timestamp_days bind];
    try (intros [= <-]; auto; fail).
  destruct (Bool.eqb ze zf); cbn [bind]; [| discriminate].
  destruct (y <? x)%Z; [discriminate |].
  destruct (timestamp_sub lib y x) as [d | e3]; cbn [bind days_ltb];
    [| discriminate].
  destruct (Z.ltb_spec (d / ns_per_day) 1); [discriminate |].
  intros [= <-]. assumption.
Qed.

(** X21.  Every report is made for the horizon the validation returned,
    which is a whole number of days, at least 1, or NaN, and NaN only when
    one of the two dates parsed to NaT; the report holds the stressed
    figures exactly when the stress test is on. *)
Theorem report_shape (lib : Library) (m : Market) (montant_usd : float)
    (date_fact date_ech : string) (stress_test : bool) (out : Stdout)
    (c : Calcul) :
  fst (calculer_var_try lib m montant_usd date_fact date_ech stress_test out)
  = Ok (inr c) ->
  validate_inputs lib montant_usd date_fact date_ech = Ok (horizon c)
  /\ match horizon c with
     | IntDays n => (1 <= n)%Z
     | NanDays =>
         to_datetime lib date_fact = Ok NaT
         \/ to_datetime lib date_ech = Ok NaT
     end
  /\ (if stress_test then stress c <> None else stress c = None).
Proof.
  unfold calculer_var_try.
  destruct (validate_inputs lib montant_usd date_fact date_ech) as [h | e] eqn:Hv;
    [| discriminate].
  destruct (get_taux_usd_mad m) as [msg | r]; [discriminate |].
  destruct (taux <- donnees_historiques m ;; volatilite lib taux)
    as [[v nu] | e]; [| discriminate].
  cbn [fst]. intros [= <-]. cbn [horizon stress calcul_var].
  split; [reflexivity |]. split.
  - exact (validate_inputs_horizon _ _ _ _ _ Hv).
  - destruct stress_test; [discriminate | reflexivity].
Qed.

Lemma report_shape_witness :
  let c := calcul_var replay_library 10000 10 NanDays
             (clamp_volatility (0.25 / 100)) 5 true in
  validate_inputs replay_library 10000 "" "" = Ok (horizon c)
  /\ match horizon c with
     | IntDays n => (1 <= n)%Z
     | NanDays =>
         to_datetime replay_library "" = Ok NaT
         \/ to_datetime replay_library "" = Ok NaT
     end
  /\ stress c <> None.
Proof.
  apply (report_shape replay_library flat_market 10000 "" "" true []).
  vm_compute. reflexivity.
Defined.
